(** * Tokan: the observer registry and the mutation router

    A shallow embedding of the [Tokan] class (a facade over the DOM
    [MutationObserver] API): its private fields, the five public methods
    [watch], [unwatch], [on], [start], [stop] and the private
    [observerRouter] callback, followed by the properties of the
    specification that concern them.

    Modelling conventions.
    - DOM nodes, [MutationObserver] objects and JavaScript function objects
      are handles (natural numbers): the class only ever compares them by
      identity or passes them on.
    - A filter callback is a handle together with the predicate it
      computes; the handle is its identity for [Set] membership.  Filter
      callbacks are taken to be pure.
    - Listener callbacks are opaque: invoking one is recorded in the host
      log and has no effect on the router (a listener that re-enters the
      router is seen as a later call of the corresponding method).
    - Everything the class asks of the host (constructing, connecting,
      disconnecting and flushing a [MutationObserver], invoking a listener)
      is appended, in program order, to the log of the [Host].
    - [observerId] is a JavaScript number used as a counter from 0 in steps
      of one; it is a [nat] here (the counter is exact below 2^53). *)

From Stdlib Require Import String List Bool Arith Lia Sorted.
Import ListNotations.

Set Implicit Arguments.

(** ** Data model *)

Definition Node := nat.
Definition FunctionRef := nat.
Definition ObserverRef := nat.

(** [type TokanMutationFilterCallback = (node: Node) => boolean] *)
Record TokanMutationFilterCallback := {
  fn : FunctionRef;
  holds : Node -> bool
}.

(** [type TokanMutationFilter = string | TokanMutationFilterCallback] *)
Inductive TokanMutationFilter :=
| FilterString (s : string)
| FilterCallback (f : TokanMutationFilterCallback).

(** [type TokanMutationKindOptions]; every field is optional. *)
Record TokanMutationKindOptions := {
  opt_oldValue : option bool;
  opt_subtree : option bool;
  opt_filters : option (list TokanMutationFilter)
}.

(** [type TokanEventCallback = (nodeList: Node, data?: unknown) => void] *)
Definition TokanEventCallback := FunctionRef.

(** The part of the DOM's [MutationObserverInit] dictionary that [watch]
    fills in. *)
Record MutationObserverInit := {
  attributes : option bool;
  attributeOldValue : option bool;
  attributeFilter : option (list string);
  characterData : option bool;
  characterDataOldValue : option bool;
  childList : option bool;
  subtree : option bool
}.

(** [config: {}] *)
Definition emptyInit : MutationObserverInit :=
  {| attributes := None; attributeOldValue := None; attributeFilter := None;
     characterData := None; characterDataOldValue := None;
     childList := None; subtree := None |}.

(** [type TokanObserverDescriptor] *)
Record TokanObserverDescriptor := {
  id : nat;
  instance : ObserverRef;
  config : MutationObserverInit;
  filters : list TokanMutationFilterCallback;
  started : bool
}.

Definition set_started (b : bool) (d : TokanObserverDescriptor)
  : TokanObserverDescriptor :=
  {| id := id d; instance := instance d; config := config d;
     filters := filters d; started := b |}.

Definition set_config (c : MutationObserverInit) (d : TokanObserverDescriptor)
  : TokanObserverDescriptor :=
  {| id := id d; instance := instance d; config := c;
     filters := filters d; started := started d |}.

(** [listeners: { [key in TokanMutationEvent]: TokanEventCallback[] }] *)
Record Listeners := {
  added : list TokanEventCallback;
  attributeChanged : list TokanEventCallback;
  characterDataChanged : list TokanEventCallback;
  removed : list TokanEventCallback
}.

(** The private fields of [class Tokan].  [observers] is a JavaScript [Set]
    of descriptor objects: a sequence in insertion order (every descriptor
    is a fresh object, so [add] always appends). *)
Record Tokan := {
  target : Node;
  observerId : nat;
  observers : list TokanObserverDescriptor;
  listeners : Listeners
}.

(** The DOM's [MutationRecord], as far as the router reads it. *)
Inductive MutationRecordType := Attributes | CharacterData | ChildList.

Record MutationRecord := {
  m_type : MutationRecordType;
  m_target : Node;
  m_attributeName : option string;
  m_oldValue : option string;
  m_addedNodes : list Node;
  m_removedNodes : list Node
}.

(** The second argument a listener receives. *)
Inductive Payload :=
| AttrData (name : option string) (oldValue : option string)
| CharData (oldValue : option string).

(** What the class does to its environment. *)
Inductive Effect :=
| NewObserver (o : ObserverRef)
| Observe (o : ObserverRef) (tgt : Node) (init : MutationObserverInit)
| Disconnect (o : ObserverRef)
| TakeRecords (o : ObserverRef)
| Invoke (listener : TokanEventCallback) (node : Node) (data : option Payload).

Record Host := {
  created : nat;
  log : list Effect
}.

Record State := {
  this : Tokan;
  host : Host
}.

Definition emit (es : list Effect) (h : Host) : Host :=
  {| created := created h; log := log h ++ es |}.

(** The errors the class throws. *)
Inductive TokanError :=
| ExpectedTarget
| ExpectedMutationKind (got : string)
| ExpectedMutationEvent (got : string).

(** ** Constructor *)

Inductive TargetArg :=
| Selector (s : string)
| ANode (n : Node)
| NotATarget.

Definition initial (tgt : Node) : State :=
  {| this := {| target := tgt; observerId := 0; observers := [];
                listeners := {| added := []; attributeChanged := [];
                                characterDataChanged := []; removed := [] |} |};
     host := {| created := 0; log := [] |} |}.

(** [querySelector] and [document] are the host's. *)
Definition construct (querySelector : string -> option Node) (document : Node)
    (arg : TargetArg) : TokanError + State :=
  match arg with
  | Selector s =>
      inr (initial (match querySelector s with Some n => n | None => document end))
  | ANode n => inr (initial n)
  | NotATarget => inl ExpectedTarget
  end.

(** ** [watch] *)

(** [filters.filter((f) => typeof f !== "string")] *)
Fixpoint callbacksOf (fs : list TokanMutationFilter)
  : list TokanMutationFilterCallback :=
  match fs with
  | [] => []
  | FilterString _ :: rest => callbacksOf rest
  | FilterCallback f :: rest => f :: callbacksOf rest
  end.

(** [filters.filter((f) => typeof f === "string")] *)
Fixpoint stringsOf (fs : list TokanMutationFilter) : list string :=
  match fs with
  | [] => []
  | FilterString s :: rest => s :: stringsOf rest
  | FilterCallback _ :: rest => stringsOf rest
  end.

(** [Set.prototype.add] on a set of functions: membership is identity. *)
Definition Set_has (f : TokanMutationFilterCallback)
    (s : list TokanMutationFilterCallback) : bool :=
  existsb (fun g => fn g =? fn f) s.

Definition Set_add (s : list TokanMutationFilterCallback)
    (f : TokanMutationFilterCallback) : list TokanMutationFilterCallback :=
  if Set_has f s then s else s ++ [f].

(** [new Set(iterable)]; [new Set(undefined)] is empty. *)
Definition Set_new (it : option (list TokanMutationFilterCallback))
  : list TokanMutationFilterCallback :=
  match it with
  | None => []
  | Some l => fold_left Set_add l []
  end.

Definition optionsFilters (options : option TokanMutationKindOptions)
  : option (list TokanMutationFilter) :=
  match options with Some o => opt_filters o | None => None end.

Definition optionsOldValue (options : option TokanMutationKindOptions)
  : option bool :=
  match options with Some o => opt_oldValue o | None => None end.

Definition optionsSubtree (options : option TokanMutationKindOptions)
  : option bool :=
  match options with Some o => opt_subtree o | None => None end.

Definition set_observerId (n : nat) (t : Tokan) : Tokan :=
  {| target := target t; observerId := n;
     observers := observers t; listeners := listeners t |}.

(** [this.observers.add(descriptor)], [descriptor] being a fresh object. *)
Definition add_observer (d : TokanObserverDescriptor) (t : Tokan) : Tokan :=
  {| target := target t; observerId := observerId t;
     observers := observers t ++ [d]; listeners := listeners t |}.

Definition set_observers (obs : list TokanObserverDescriptor) (t : Tokan)
  : Tokan :=
  {| target := target t; observerId := observerId t;
     observers := obs; listeners := listeners t |}.

Definition watch (mutationKind : string)
    (options : option TokanMutationKindOptions) (s : State)
  : (TokanError + nat) * State :=
  (* this.observerId++ *)
  let t1 := set_observerId (S (observerId (this s))) (this s) in
  (* new MutationObserver(this.observerRouter.bind(this)) *)
  let o := created (host s) in
  let host1 := {| created := S o; log := log (host s) ++ [NewObserver o] |} in
  let descriptor :=
    {| id := observerId t1;
       instance := o;
       config := emptyInit;
       filters := Set_new (option_map callbacksOf (optionsFilters options));
       started := false |} in
  if String.eqb mutationKind "attributes" then
    let descriptor1 := set_config
      {| attributes := Some true;
         attributeOldValue := optionsOldValue options;
         attributeFilter := option_map stringsOf (optionsFilters options);
         characterData := None; characterDataOldValue := None;
         childList := None;
         subtree := optionsSubtree options |} descriptor in
    (inr (observerId t1),
     {| this := add_observer descriptor1 t1; host := host1 |})
  else if String.eqb mutationKind "characterData" then
    let descriptor1 := set_config
      {| attributes := None; attributeOldValue := None; attributeFilter := None;
         characterData := Some true;
         characterDataOldValue := optionsOldValue options;
         childList := None;
         subtree := optionsSubtree options |} descriptor in
    (inr (observerId t1),
     {| this := add_observer descriptor1 t1; host := host1 |})
  else if String.eqb mutationKind "nodes" then
    let descriptor1 := set_config
      {| attributes := None; attributeOldValue := None; attributeFilter := None;
         characterData := None; characterDataOldValue := None;
         childList := Some true;
         subtree := optionsSubtree options |} descriptor in
    (inr (observerId t1),
     {| this := add_observer descriptor1 t1; host := host1 |})
  else
    (* this.observerId--; throw *)
    (inl (ExpectedMutationKind mutationKind),
     {| this := set_observerId (pred (observerId t1)) t1; host := host1 |}).

(** ** [unwatch] *)

(** [if (id)] on an optional number: absent and [0] are both falsy. *)
Definition given (id : option nat) : option nat :=
  match id with
  | Some (S n) => Some (S n)
  | _ => None
  end.

(** The loop of the branch without id,
    [for (const observer of this.observers)
       if (!observer.started) observer.instance.disconnect();
       else return false;]:
    the calls it makes, and whether it ran to its end. *)
Fixpoint disconnectUnstarted (obs : list TokanObserverDescriptor)
  : list Effect * bool :=
  match obs with
  | [] => ([], true)
  | observer :: rest =>
      if negb (started observer) then
        let '(es, completed) := disconnectUnstarted rest in
        (Disconnect (instance observer) :: es, completed)
      else ([], false)
  end.

Definition unwatch (id' : option nat) (s : State) : bool * State :=
  match given id' with
  | Some n =>
      (* both branches of the loop body return: only the first descriptor
         in iteration order is ever looked at *)
      match observers (this s) with
      | observer :: rest =>
          if (id observer =? n) && negb (started observer) then
            (true, {| this := set_observers rest (this s);
                      host := emit [Disconnect (instance observer)] (host s) |})
          else (false, s)
      | [] => (false, s)
      end
  | None =>
      match disconnectUnstarted (observers (this s)) with
      | (es, false) => (false, {| this := this s; host := emit es (host s) |})
      | (es, true) =>
          (true, {| this := set_observers [] (this s);
                    host := emit es (host s) |})
      end
  end.

(** ** [on] *)

Definition set_listeners (ls : Listeners) (t : Tokan) : Tokan :=
  {| target := target t; observerId := observerId t;
     observers := observers t; listeners := ls |}.

Definition on (event : string) (callback : TokanEventCallback) (s : State)
  : option TokanError * State :=
  let ls := listeners (this s) in
  let put ls' := (None, {| this := set_listeners ls' (this s); host := host s |}) in
  if String.eqb event "added" then
    put {| added := added ls ++ [callback];
           attributeChanged := attributeChanged ls;
           characterDataChanged := characterDataChanged ls;
           removed := removed ls |}
  else if String.eqb event "attributeChanged" then
    put {| added := added ls;
           attributeChanged := attributeChanged ls ++ [callback];
           characterDataChanged := characterDataChanged ls;
           removed := removed ls |}
  else if String.eqb event "characterDataChanged" then
    put {| added := added ls;
           attributeChanged := attributeChanged ls;
           characterDataChanged := characterDataChanged ls ++ [callback];
           removed := removed ls |}
  else if String.eqb event "removed" then
    put {| added := added ls;
           attributeChanged := attributeChanged ls;
           characterDataChanged := characterDataChanged ls;
           removed := removed ls ++ [callback] |}
  else (Some (ExpectedMutationEvent event), s).

(** ** [start] and [stop] *)

Section Loops.
Variable test : TokanObserverDescriptor -> bool.
Variable act : TokanObserverDescriptor -> TokanObserverDescriptor * Effect.

(** [for (const observer of this.observers)
       if (test) { act } else break;] *)
Fixpoint forWhile (obs : list TokanObserverDescriptor)
  : list TokanObserverDescriptor * list Effect :=
  match obs with
  | [] => ([], [])
  | observer :: rest =>
      if test observer then
        let '(rest', es) := forWhile rest in
        (fst (act observer) :: rest', snd (act observer) :: es)
      else (obs, [])
  end.

(** [for (const observer of this.observers) if (test) { act }] *)
Fixpoint forEachIf (obs : list TokanObserverDescriptor)
  : list TokanObserverDescriptor * list Effect :=
  match obs with
  | [] => ([], [])
  | observer :: rest =>
      let '(rest', es) := forEachIf rest in
      if test observer then
        (fst (act observer) :: rest', snd (act observer) :: es)
      else (observer :: rest', es)
  end.
End Loops.

Definition commit (r : list TokanObserverDescriptor * list Effect) (s : State)
  : State :=
  {| this := set_observers (fst r) (this s); host := emit (snd r) (host s) |}.

(** [observer.instance.observe(this.target, observer.config);
     observer.started = true;] *)
Definition activate (tgt : Node) (observer : TokanObserverDescriptor)
  : TokanObserverDescriptor * Effect :=
  (set_started true observer, Observe (instance observer) tgt (config observer)).

(** [observer.instance.disconnect(); observer.started = false;] *)
Definition deactivate (observer : TokanObserverDescriptor)
  : TokanObserverDescriptor * Effect :=
  (set_started false observer, Disconnect (instance observer)).

Definition start (id' : option nat) (s : State) : State :=
  match given id' with
  | Some n =>
      commit (forWhile (fun observer => (id observer =? n) && negb (started observer))
                       (activate (target (this s))) (observers (this s))) s
  | None =>
      commit (forEachIf (fun observer => negb (started observer))
                        (activate (target (this s))) (observers (this s))) s
  end.

Definition stop (id' : option nat) (s : State) : State :=
  match given id' with
  | Some n =>
      commit (forWhile (fun observer => (id observer =? n) && started observer)
                       deactivate (observers (this s))) s
  | None =>
      commit (forEachIf (fun observer => started observer)
                        deactivate (observers (this s))) s
  end.

(** ** [observerRouter] *)

(** [let filters; for (const observerDescriptor of this.observers)
      if (observerDescriptor.instance === observer)
        filters = observerDescriptor.filters;] *)
Definition findFilters (obs : list TokanObserverDescriptor)
    (observer : ObserverRef) : option (list TokanMutationFilterCallback) :=
  fold_left (fun found observerDescriptor =>
               if instance observerDescriptor =? observer
               then Some (filters observerDescriptor) else found)
            obs None.

(** [if (filters?.size) filters.forEach((filter) => { if (filter(node)) body })
     else body] *)
Definition throughFilters (found : option (list TokanMutationFilterCallback))
    (node : Node) (body : list Effect) : list Effect :=
  match found with
  | Some (f :: fs) =>
      flat_map (fun filter => if holds filter node then body else []) (f :: fs)
  | _ => body
  end.

Definition routeMutation (ls : Listeners)
    (found : option (list TokanMutationFilterCallback))
    (mutation : MutationRecord) : list Effect :=
  match m_type mutation with
  | Attributes =>
      flat_map (fun listener =>
                  throughFilters found (m_target mutation)
                    [Invoke listener (m_target mutation)
                       (Some (AttrData (m_attributeName mutation)
                                       (m_oldValue mutation)))])
               (attributeChanged ls)
  | CharacterData =>
      flat_map (fun listener =>
                  throughFilters found (m_target mutation)
                    [Invoke listener (m_target mutation)
                       (Some (CharData (m_oldValue mutation)))])
               (characterDataChanged ls)
  | ChildList =>
      (if 0 <? length (m_addedNodes mutation) then
         flat_map (fun node =>
                     throughFilters found node
                       (map (fun listener => Invoke listener node None)
                            (added ls)))
                  (m_addedNodes mutation)
       else [])
      ++
      (if 0 <? length (m_removedNodes mutation) then
         flat_map (fun node =>
                     throughFilters found node
                       (map (fun listener => Invoke listener node None)
                            (removed ls)))
                  (m_removedNodes mutation)
       else [])
  end.

Definition observerRouter (mutationList : list MutationRecord)
    (observer : ObserverRef) (s : State) : State :=
  let found := findFilters (observers (this s)) observer in
  {| this := this s;
     host := emit (flat_map (routeMutation (listeners (this s)) found) mutationList
                   ++ [TakeRecords observer]) (host s) |}.

(** ** Sequences of calls on one router *)

Inductive Call :=
| CallWatch (mutationKind : string) (options : option TokanMutationKindOptions)
| CallUnwatch (id : option nat)
| CallOn (event : string) (callback : TokanEventCallback)
| CallStart (id : option nat)
| CallStop (id : option nat)
| Deliver (mutationList : list MutationRecord) (observer : ObserverRef).

Inductive Outcome :=
| ReturnedId (n : nat)
| ReturnedBool (b : bool)
| ReturnedThis
| ReturnedNothing
| Threw (e : TokanError).

Definition step (c : Call) (s : State) : Outcome * State :=
  match c with
  | CallWatch k o =>
      match watch k o s with
      | (inr n, s') => (ReturnedId n, s')
      | (inl e, s') => (Threw e, s')
      end
  | CallUnwatch i => let '(b, s') := unwatch i s in (ReturnedBool b, s')
  | CallOn e cb =>
      match on e cb s with
      | (None, s') => (ReturnedThis, s')
      | (Some err, s') => (Threw err, s')
      end
  | CallStart i => (ReturnedNothing, start i s)
  | CallStop i => (ReturnedNothing, stop i s)
  | Deliver ml o => (ReturnedNothing, observerRouter ml o s)
  end.

Fixpoint run (cs : list Call) (s : State) : list Outcome * State :=
  match cs with
  | [] => ([], s)
  | c :: rest =>
      let '(r, s1) := step c s in
      let '(rs, s2) := run rest s1 in
      (r :: rs, s2)
  end.

(** The ids that the successful [watch] calls of a run returned, in order. *)
Fixpoint returnedIds (rs : list Outcome) : list nat :=
  match rs with
  | [] => []
  | ReturnedId n :: rest => n :: returnedIds rest
  | _ :: rest => returnedIds rest
  end.

(** The arguments with which [listener] was invoked, in order. *)
Fixpoint invocations (listener : TokanEventCallback) (es : list Effect)
  : list (Node * option Payload) :=
  match es with
  | [] => []
  | Invoke l node data :: rest =>
      if l =? listener then (node, data) :: invocations listener rest
      else invocations listener rest
  | _ :: rest => invocations listener rest
  end.

(** ** Notions used in the statements *)

(** The three kinds [watch] supports. *)
Definition supportedKind (k : string) : bool :=
  String.eqb k "attributes" || String.eqb k "characterData" || String.eqb k "nodes".

(** One [disconnect()] per descriptor, in registry order. *)
Definition disconnects (obs : list TokanObserverDescriptor) : list Effect :=
  map (fun d => Disconnect (instance d)) obs.

(** Two watchers registered on a fresh router, none started. *)
Definition twoWatchers : State :=
  snd (run [CallWatch "nodes" None; CallWatch "attributes" None] (initial 0)).

(** One watcher registered on a fresh router. *)
Definition oneWatcher : State :=
  snd (run [CallWatch "nodes" None] (initial 0)).

(** Two watchers, the first of them started. *)
Definition firstStarted : State :=
  snd (run [CallWatch "nodes" None; CallWatch "attributes" None; CallStart (Some 1)]
           (initial 0)).

(** Two watchers, the second of them started (through [start()] followed
    by [stop(1)]). *)
Definition secondStarted : State :=
  snd (run [CallWatch "nodes" None; CallWatch "attributes" None;
            CallStart None; CallStop (Some 1)] (initial 0)).

(** The invariant of a router: ids lie between 1 and the counter, and the
    descriptors wrap pairwise distinct [MutationObserver] objects, all of
    them constructed earlier. *)
Definition wellFormed (s : State) : Prop :=
  Forall (fun i => 1 <= i <= observerId (this s)) (map id (observers (this s)))
  /\ Forall (fun o => o < created (host s)) (map instance (observers (this s)))
  /\ NoDup (map instance (observers (this s))).

(** The number of predicates of a filter set that accept a node. *)
Definition matching (fs : list TokanMutationFilterCallback) (node : Node) : nat :=
  length (filter (fun f => holds f node) fs).

(** How often the body guarded by a filter set runs for a node: once per
    accepting predicate, and once when there is no predicate at all. *)
Definition fanout (fs : list TokanMutationFilterCallback) (node : Node) : nat :=
  match fs with
  | [] => 1
  | _ :: _ => matching fs node
  end.

(** A filter that accepts every node, and one that accepts node 5 only. *)
Definition acceptsAll : TokanMutationFilterCallback :=
  {| fn := 100; holds := fun _ => true |}.

Definition acceptsFive : TokanMutationFilterCallback :=
  {| fn := 101; holds := fun node => node =? 5 |}.

(** An attribute watcher with the two predicates above and the attribute
    name "class" as filters, one attribute listener, started. *)
Definition attributeWatcher : State :=
  snd (run [CallWatch "attributes"
              (Some {| opt_oldValue := Some true; opt_subtree := None;
                       opt_filters := Some [FilterCallback acceptsAll;
                                            FilterString "class";
                                            FilterCallback acceptsFive] |});
            CallOn "attributeChanged" 10;
            CallStart None] (initial 0)).

Definition classChanged (node : Node) : MutationRecord :=
  {| m_type := Attributes; m_target := node;
     m_attributeName := Some "class"%string; m_oldValue := Some "old"%string;
     m_addedNodes := []; m_removedNodes := [] |}.

(** A child-list watcher over the subtree, without filters, with two
    listeners for added nodes, started. *)
Definition nodesWatcher : State :=
  snd (run [CallWatch "nodes"
              (Some {| opt_oldValue := None; opt_subtree := Some true;
                       opt_filters := None |});
            CallOn "added" 10; CallOn "added" 11;
            CallStart None] (initial 0)).

Definition inserted (nodes : list Node) : MutationRecord :=
  {| m_type := ChildList; m_target := 0;
     m_attributeName := None; m_oldValue := None;
     m_addedNodes := nodes; m_removedNodes := [] |}.

(** The listener sequence an event name selects, if the name is one of the
    four of [TokanMutationEvents]. *)
Definition listenersFor (event : string) (ls : Listeners)
  : option (list TokanEventCallback) :=
  if String.eqb event "added" then Some (added ls)
  else if String.eqb event "attributeChanged" then Some (attributeChanged ls)
  else if String.eqb event "characterDataChanged" then Some (characterDataChanged ls)
  else if String.eqb event "removed" then Some (removed ls)
  else None.

(** [ls'] holds the listeners of [ls], in the same order, and possibly
    more after them. *)
Definition grownFrom (ls ls' : Listeners) : Prop :=
  (exists more, added ls' = added ls ++ more)
  /\ (exists more, attributeChanged ls' = attributeChanged ls ++ more)
  /\ (exists more, characterDataChanged ls' = characterDataChanged ls ++ more)
  /\ (exists more, removed ls' = removed ls ++ more).

(** One [observe(target, config)] per descriptor, in registry order. *)
Definition observes (tgt : Node) (obs : list TokanObserverDescriptor)
  : list Effect :=
  map (fun d => Observe (instance d) tgt (config d)) obs.

(** Whether the [MutationObserver] [o] is connected after the calls [es],
    [b] telling whether it was before them: the last [observe] or
    [disconnect] made on it decides. *)
Fixpoint subscribed (o : ObserverRef) (es : list Effect) (b : bool) : bool :=
  match es with
  | [] => b
  | Observe o' _ _ :: rest => subscribed o rest (if o' =? o then true else b)
  | Disconnect o' :: rest => subscribed o rest (if o' =? o then false else b)
  | _ :: rest => subscribed o rest b
  end.

(** Whether the registry holds a started descriptor that wraps [o]. *)
Definition activeOn (obs : list TokanObserverDescriptor) (o : ObserverRef) : bool :=
  existsb (fun d => (instance d =? o) && started d) obs.

(** One pass over the registry that applies [act] to some descriptors and
    leaves the others alone, collecting the calls made: what the loops of
    [start], [stop] and [unwatch] have in common. *)
Inductive Pass (act : TokanObserverDescriptor -> TokanObserverDescriptor * Effect)
  : list TokanObserverDescriptor -> list TokanObserverDescriptor
    -> list Effect -> Prop :=
| Pass_nil : Pass act [] [] []
| Pass_skip : forall d obs obs' es,
    Pass act obs obs' es -> Pass act (d :: obs) (d :: obs') es
| Pass_act : forall d obs obs' es,
    Pass act obs obs' es ->
    Pass act (d :: obs) (fst (act d) :: obs') (snd (act d) :: es).

(** A character-data watcher with two predicate filters and one listener,
    started. *)
Definition textWatcher : State :=
  snd (run [CallWatch "characterData"
              (Some {| opt_oldValue := Some true; opt_subtree := Some true;
                       opt_filters := Some [FilterCallback acceptsAll;
                                            FilterCallback acceptsFive] |});
            CallOn "characterDataChanged" 10;
            CallStart None] (initial 0)).

Definition textChanged (node : Node) : MutationRecord :=
  {| m_type := CharacterData; m_target := node;
     m_attributeName := None; m_oldValue := Some "old"%string;
     m_addedNodes := []; m_removedNodes := [] |}.

(** The host's view and the router's agree on which observers are active. *)
Definition mirrored (s : State) : Prop :=
  forall o, subscribed o (log (host s)) false = activeOn (observers (this s)) o.

(** A child-list watcher whose only filter accepts node 5, with one
    listener for added nodes, started. *)
Definition pickyWatcher : State :=
  snd (run [CallWatch "nodes"
              (Some {| opt_oldValue := None; opt_subtree := Some true;
                       opt_filters := Some [FilterCallback acceptsFive] |});
            CallOn "added" 10;
            CallStart None] (initial 5)).

(** The only [observe] calls among [es] are on [tgt]. *)
Definition observesOnly (tgt : Node) (es : list Effect) : Prop :=
  Forall (fun e => match e with
                   | Observe _ t _ => t = tgt
                   | _ => True
                   end) es.

(** * Properties *)

(** ** Basic facts about the embedding *)

Lemma given_absent : given None = None.
Proof. reflexivity. Qed.

Lemma given_zero : given (Some 0) = None.
Proof. reflexivity. Qed.

Lemma given_positive : forall n, 0 < n -> given (Some n) = Some n.
Proof. intros [|n] H; [lia | reflexivity]. Qed.

Lemma set_observerId_rollback : forall t,
  set_observerId (pred (observerId (set_observerId (S (observerId t)) t)))
                 (set_observerId (S (observerId t)) t) = t.
Proof. intros [tgt n obs ls]. reflexivity. Qed.

Lemma set_observers_same : forall t, set_observers (observers t) t = t.
Proof. intros [tgt n obs ls]. reflexivity. Qed.

Lemma emit_nothing : forall h, emit [] h = h.
Proof. intros [c l]. unfold emit. simpl. now rewrite app_nil_r. Qed.

Lemma commit_nothing : forall s, commit (observers (this s), []) s = s.
Proof.
  intros [t h]. unfold commit. simpl.
  now rewrite set_observers_same, emit_nothing.
Qed.

Lemma watch_supported : forall k options s,
  supportedKind k = true ->
  exists d,
    watch k options s
    = (inr (S (observerId (this s))),
       {| this := add_observer d (set_observerId (S (observerId (this s))) (this s));
          host := {| created := S (created (host s));
                     log := log (host s) ++ [NewObserver (created (host s))] |} |})
    /\ id d = S (observerId (this s))
    /\ instance d = created (host s)
    /\ started d = false
    /\ filters d = Set_new (option_map callbacksOf (optionsFilters options)).
Proof.
  intros k options s H. unfold supportedKind in H. unfold watch.
  destruct (String.eqb k "attributes").
  { eexists. split; [reflexivity | simpl; auto]. }
  destruct (String.eqb k "characterData").
  { eexists. split; [reflexivity | simpl; auto]. }
  destruct (String.eqb k "nodes"); [| discriminate].
  eexists. split; [reflexivity | simpl; auto].
Qed.

Lemma watch_unsupported : forall k options s,
  supportedKind k = false ->
  watch k options s
  = (inl (ExpectedMutationKind k),
     {| this := this s;
        host := {| created := S (created (host s));
                   log := log (host s) ++ [NewObserver (created (host s))] |} |}).
Proof.
  intros k options s H. unfold supportedKind in H. unfold watch.
  destruct (String.eqb k "attributes"); [discriminate |].
  destruct (String.eqb k "characterData"); [discriminate |].
  destruct (String.eqb k "nodes"); [discriminate |].
  now rewrite set_observerId_rollback.
Qed.

(** ** The loop of [unwatch()] *)

Lemma disconnectUnstarted_none_started : forall obs,
  Forall (fun d => started d = false) obs ->
  disconnectUnstarted obs = (disconnects obs, true).
Proof.
  induction 1 as [|d obs Hd _ IH]; simpl; [reflexivity |].
  now rewrite Hd, IH.
Qed.

Lemma disconnectUnstarted_some_started : forall obs,
  Exists (fun d => started d = true) obs ->
  exists pre d post,
    obs = pre ++ d :: post
    /\ Forall (fun d => started d = false) pre
    /\ started d = true
    /\ disconnectUnstarted obs = (disconnects pre, false).
Proof.
  induction obs as [|d obs IH]; intros H.
  - inversion H.
  - destruct (started d) eqn:Hd.
    + exists [], d, obs. simpl. rewrite Hd. auto.
    + inversion H as [? ? Hd' | ? ? Hex]; subst; [congruence |].
      destruct (IH Hex) as (pre & e & post & -> & Hpre & He & Hrun).
      exists (d :: pre), e, post. simpl. rewrite Hd, Hrun. auto.
Qed.

Lemma started_dichotomy : forall obs,
  Forall (fun d => started d = false) obs
  \/ Exists (fun d : TokanObserverDescriptor => started d = true) obs.
Proof.
  induction obs as [|d obs [IH | IH]]; auto.
  destruct (started d) eqn:Hd; auto.
Qed.

(** ** What the scans with an id reach *)

(** [start(id)] and [unwatch(id)] act on the descriptor with that id when
    it is the first of the registry. *)
Lemma start_id_first : forall s n d rest,
  0 < n ->
  observers (this s) = d :: rest ->
  id d = n -> started d = false ->
  (forall e, hd_error rest = Some e -> id e <> n) ->
  start (Some n) s
  = {| this := set_observers (set_started true d :: rest) (this s);
       host := emit [Observe (instance d) (target (this s)) (config d)] (host s) |}.
Proof.
  intros s n d rest Hn Hobs Hid Hst Hrest.
  unfold start. rewrite (given_positive Hn), Hobs. simpl.
  rewrite Hid, Nat.eqb_refl, Hst. simpl.
  destruct rest as [|e rest]; [reflexivity |].
  simpl. specialize (Hrest e eq_refl). apply Nat.eqb_neq in Hrest.
  now rewrite Hrest.
Qed.

Lemma unwatch_id_first : forall s n d rest,
  0 < n ->
  observers (this s) = d :: rest ->
  id d = n -> started d = false ->
  unwatch (Some n) s
  = (true, {| this := set_observers rest (this s);
              host := emit [Disconnect (instance d)] (host s) |}).
Proof.
  intros s n d rest Hn Hobs Hid Hst.
  unfold unwatch. rewrite (given_positive Hn), Hobs.
  now rewrite Hid, Nat.eqb_refl, Hst.
Qed.

(** Behind a first descriptor with another id, they do nothing at all. *)
Lemma start_id_blocked : forall s n d rest,
  0 < n ->
  observers (this s) = d :: rest ->
  id d <> n ->
  start (Some n) s = s.
Proof.
  intros s n d rest Hn Hobs Hid.
  unfold start. rewrite (given_positive Hn), Hobs. simpl.
  apply Nat.eqb_neq in Hid. rewrite Hid. simpl.
  rewrite <- Hobs. apply commit_nothing.
Qed.

Lemma stop_id_blocked : forall s n d rest,
  0 < n ->
  observers (this s) = d :: rest ->
  id d <> n ->
  stop (Some n) s = s.
Proof.
  intros s n d rest Hn Hobs Hid.
  unfold stop. rewrite (given_positive Hn), Hobs. simpl.
  apply Nat.eqb_neq in Hid. rewrite Hid. simpl.
  rewrite <- Hobs. apply commit_nothing.
Qed.

Lemma unwatch_id_blocked : forall s n d rest,
  0 < n ->
  observers (this s) = d :: rest ->
  id d <> n ->
  unwatch (Some n) s = (false, s).
Proof.
  intros s n d rest Hn Hobs Hid.
  unfold unwatch. rewrite (given_positive Hn), Hobs.
  apply Nat.eqb_neq in Hid. now rewrite Hid.
Qed.

(** ** Claims about [start(id)], [unwatch(id)] and the round trip *)

(** C2 (the code departs from the claim): [start(id)] is claimed to
    activate the descriptor with that id wherever it sits in the registry.
    On a router holding the unstarted watchers 1 and 2, in that order,
    [start(2)] changes nothing: watcher 2 exists, is not started, and stays
    so, and no subscription is made. The scan leaves the loop at watcher 1. *)
Theorem C2_start_id_ignores_later_watcher :
  (exists d, In d (observers (this twoWatchers))
             /\ id d = 2 /\ started d = false)
  /\ start (Some 2) twoWatchers = twoWatchers.
Proof.
  split; [| reflexivity].
  eexists. split; [right; left; reflexivity | split; reflexivity].
Qed.

(** C3 (the code departs from the claim): [unwatch(id)] is claimed to
    remove an existing, unstarted descriptor wherever it sits in the
    registry. On a router holding the unstarted watchers 1 and 2, in that
    order, [unwatch(2)] returns [false] and removes nothing: the loop
    returns at watcher 1. *)
Theorem C3_unwatch_id_ignores_later_watcher :
  (exists d, In d (observers (this twoWatchers))
             /\ id d = 2 /\ started d = false)
  /\ unwatch (Some 2) twoWatchers = (false, twoWatchers).
Proof.
  split; [| reflexivity].
  eexists. split; [right; left; reflexivity | split; reflexivity].
Qed.

(** C4 (the code departs from the claim): the round trip
    [watch] / [start(id)] / [stop(id)] / [unwatch(id)] is claimed to succeed
    from every router state. On a router that already holds one watcher,
    [watch] returns 2, [start(2)] and [stop(2)] do nothing, and
    [unwatch(2)] returns [false] with the descriptor 2 still registered. *)
Theorem C4_round_trip_fails_behind_older_watcher :
  let r := run [CallWatch "attributes" None; CallStart (Some 2);
                CallStop (Some 2); CallUnwatch (Some 2)] oneWatcher in
  fst r = [ReturnedId 2; ReturnedNothing; ReturnedNothing; ReturnedBool false]
  /\ map id (observers (this (snd r))) = [1; 2]
  /\ log (host (snd r)) = [NewObserver 0; NewObserver 1].
Proof. repeat split. Qed.

(** On a router whose registry is empty the round trip does succeed, and a
    second [unwatch] of the same id fails. *)
Lemma round_trip_on_empty_registry : forall k options s,
  supportedKind k = true ->
  observers (this s) = [] ->
  let n := S (observerId (this s)) in
  let r := run [CallWatch k options; CallStart (Some n); CallStop (Some n);
                CallUnwatch (Some n); CallUnwatch (Some n)] s in
  fst r = [ReturnedId n; ReturnedNothing; ReturnedNothing;
           ReturnedBool true; ReturnedBool false]
  /\ observers (this (snd r)) = [].
Proof.
  intros k options s Hk Hobs n r. subst r.
  destruct (watch_supported k options s Hk) as (d & Hw & Hid & _ & Hst & _).
  fold n in Hw, Hid.
  destruct d as [i o c fs st]. simpl in Hid, Hst. subst i st.
  cbn [run step]. rewrite Hw.
  unfold start, stop, unwatch.
  cbn [given n]. simpl. rewrite Hobs. simpl.
  rewrite Nat.eqb_refl. simpl. rewrite Nat.eqb_refl. simpl.
  rewrite Nat.eqb_refl. simpl. split; reflexivity.
Qed.

(** ** Claims about [unwatch] and about a failing [watch] *)

(** C5: [unwatch()] without an id returns [false] as soon as some
    descriptor is started, and then the router's fields are what they were,
    so every started descriptor is still registered and still started;
    when no descriptor is started it disconnects every descriptor, in
    registry order, empties the registry and returns [true]. *)
Theorem C5_unwatch_all : forall s,
  (Exists (fun d => started d = true) (observers (this s)) ->
     fst (unwatch None s) = false
     /\ this (snd (unwatch None s)) = this s
     /\ forall d, In d (observers (this s)) -> started d = true ->
          In d (observers (this (snd (unwatch None s)))))
  /\
  (Forall (fun d => started d = false) (observers (this s)) ->
     fst (unwatch None s) = true
     /\ observers (this (snd (unwatch None s))) = []
     /\ log (host (snd (unwatch None s)))
        = log (host s) ++ disconnects (observers (this s))).
Proof.
  intros s. split; intros H; unfold unwatch; simpl.
  - destruct (disconnectUnstarted_some_started H)
      as (pre & d & post & _ & _ & _ & ->).
    simpl. auto.
  - rewrite (disconnectUnstarted_none_started H). simpl. auto.
Qed.

Lemma C5_unwatch_all_witness :
  (Exists (fun d => started d = true) (observers (this firstStarted))
   /\ fst (unwatch None firstStarted) = false
   /\ this (snd (unwatch None firstStarted)) = this firstStarted)
  /\
  (Forall (fun d => started d = false) (observers (this twoWatchers))
   /\ fst (unwatch None twoWatchers) = true
   /\ observers (this (snd (unwatch None twoWatchers))) = []).
Proof.
  assert (H1 : Exists (fun d => started d = true) (observers (this firstStarted)))
    by (left; reflexivity).
  assert (H2 : Forall (fun d => started d = false) (observers (this twoWatchers)))
    by (repeat constructor).
  split.
  - split; [exact H1 |].
    destruct (proj1 (C5_unwatch_all firstStarted) H1) as (Ha & Hb & _).
    split; [exact Ha | exact Hb].
  - split; [exact H2 |].
    destruct (proj2 (C5_unwatch_all twoWatchers) H2) as (Ha & Hb & _).
    split; [exact Ha | exact Hb].
Defined.

(** C6: [watch] with a kind other than the three recognised ones throws
    the unsupported-kind error, and the router's fields (the id counter and
    the registry among them) are afterwards exactly what they were before
    the call. *)
Theorem C6_watch_unsupported_kind : forall mutationKind options s,
  mutationKind <> "attributes"%string ->
  mutationKind <> "characterData"%string ->
  mutationKind <> "nodes"%string ->
  fst (watch mutationKind options s) = inl (ExpectedMutationKind mutationKind)
  /\ observerId (this (snd (watch mutationKind options s))) = observerId (this s)
  /\ observers (this (snd (watch mutationKind options s))) = observers (this s)
  /\ this (snd (watch mutationKind options s)) = this s.
Proof.
  intros k options s H1 H2 H3.
  rewrite watch_unsupported; [simpl; auto |].
  unfold supportedKind.
  apply String.eqb_neq in H1, H2, H3. now rewrite H1, H2, H3.
Qed.

Lemma C6_watch_unsupported_kind_witness :
  fst (watch "childList" None twoWatchers) = inl (ExpectedMutationKind "childList")
  /\ observerId (this (snd (watch "childList" None twoWatchers))) = 2
  /\ observers (this (snd (watch "childList" None twoWatchers)))
     = observers (this twoWatchers).
Proof.
  destruct (C6_watch_unsupported_kind (mutationKind := "childList") None twoWatchers)
    as (Ha & Hb & Hc & _); [discriminate | discriminate | discriminate |].
  split; [exact Ha | split; [exact Hb | exact Hc]].
Defined.

(** C9: whenever [unwatch] returns [false], with or without an id, the
    router's fields are unchanged: no descriptor was removed and no
    [started] flag changed. The only trace of the call is that the
    unstarted descriptors of some initial segment of the registry may have
    been disconnected. *)
Theorem C9_unwatch_failure_keeps_registry : forall id' s,
  fst (unwatch id' s) = false ->
  this (snd (unwatch id' s)) = this s
  /\ exists pre post,
       observers (this s) = pre ++ post
       /\ Forall (fun d => started d = false) pre
       /\ log (host (snd (unwatch id' s))) = log (host s) ++ disconnects pre.
Proof.
  intros i s. unfold unwatch.
  assert (Hnil : this s = this s /\ exists pre post,
             observers (this s) = pre ++ post
             /\ Forall (fun d => started d = false) pre
             /\ log (host s) = log (host s) ++ disconnects pre).
  { split; [reflexivity |]. exists [], (observers (this s)).
    simpl. now rewrite app_nil_r. }
  destruct (given i) as [n|].
  - destruct (observers (this s)) as [|d rest] eqn:Hobs; simpl; [auto |].
    destruct ((id d =? n) && negb (started d)); simpl; [discriminate | auto].
  - destruct (started_dichotomy (observers (this s))) as [Hall | Hex].
    + rewrite (disconnectUnstarted_none_started Hall). simpl. discriminate.
    + destruct (disconnectUnstarted_some_started Hex)
        as (pre & d & post & Hsplit & Hpre & _ & Hrun).
      rewrite Hrun. simpl. intros _. split; [reflexivity |].
      exists pre, (d :: post). auto.
Qed.

Lemma C9_unwatch_failure_keeps_registry_witness :
  fst (unwatch None secondStarted) = false
  /\ this (snd (unwatch None secondStarted)) = this secondStarted
  /\ log (host (snd (unwatch None secondStarted)))
     = log (host secondStarted) ++ [Disconnect 0].
Proof.
  split; [reflexivity |].
  split; [| reflexivity].
  exact (proj1 (C9_unwatch_failure_keeps_registry None secondStarted eq_refl)).
Defined.

(** ** What every call preserves *)

Section LoopFacts.
Variable X : Type.
Variable g : TokanObserverDescriptor -> X.
Variable test : TokanObserverDescriptor -> bool.
Variable act : TokanObserverDescriptor -> TokanObserverDescriptor * Effect.
Hypothesis act_keeps : forall d, g (fst (act d)) = g d.

Lemma forWhile_keeps : forall obs,
  map g (fst (forWhile test act obs)) = map g obs.
Proof.
  induction obs as [|d obs IH]; simpl; [reflexivity |].
  destruct (test d); [| reflexivity].
  destruct (forWhile test act obs) as [rest es]. simpl in *.
  now rewrite act_keeps, IH.
Qed.

Lemma forEachIf_keeps : forall obs,
  map g (fst (forEachIf test act obs)) = map g obs.
Proof.
  induction obs as [|d obs IH]; simpl; [reflexivity |].
  destruct (forEachIf test act obs) as [rest es]. simpl in *.
  destruct (test d); simpl; now rewrite ?act_keeps, IH.
Qed.
End LoopFacts.

Lemma start_keeps : forall X (g : TokanObserverDescriptor -> X) i s,
  (forall b d, g (set_started b d) = g d) ->
  map g (observers (this (start i s))) = map g (observers (this s))
  /\ observerId (this (start i s)) = observerId (this s)
  /\ listeners (this (start i s)) = listeners (this s)
  /\ created (host (start i s)) = created (host s).
Proof.
  intros X g i s Hg. unfold start.
  destruct (given i); simpl;
    (split; [| auto]);
    [apply forWhile_keeps | apply forEachIf_keeps]; intros d; apply Hg.
Qed.

Lemma stop_keeps : forall X (g : TokanObserverDescriptor -> X) i s,
  (forall b d, g (set_started b d) = g d) ->
  map g (observers (this (stop i s))) = map g (observers (this s))
  /\ observerId (this (stop i s)) = observerId (this s)
  /\ listeners (this (stop i s)) = listeners (this s)
  /\ created (host (stop i s)) = created (host s).
Proof.
  intros X g i s Hg. unfold stop.
  destruct (given i); simpl;
    (split; [| auto]);
    [apply forWhile_keeps | apply forEachIf_keeps]; intros d; apply Hg.
Qed.

(** [unwatch] leaves the registry as it is, drops its first descriptor, or
    empties it; it never touches the counter. *)
Lemma unwatch_registry : forall i s,
  (observers (this (snd (unwatch i s))) = observers (this s)
   \/ observers (this (snd (unwatch i s))) = tl (observers (this s))
   \/ observers (this (snd (unwatch i s))) = [])
  /\ observerId (this (snd (unwatch i s))) = observerId (this s)
  /\ created (host (snd (unwatch i s))) = created (host s).
Proof.
  intros i s. unfold unwatch. destruct (given i) as [n|].
  - destruct (observers (this s)) as [|d rest] eqn:Hobs; simpl; [auto |].
    destruct ((id d =? n) && negb (started d)); simpl; auto.
  - destruct (disconnectUnstarted (observers (this s))) as [es [|]]; simpl; auto.
Qed.

Lemma on_keeps : forall e cb s,
  observers (this (snd (on e cb s))) = observers (this s)
  /\ observerId (this (snd (on e cb s))) = observerId (this s)
  /\ host (snd (on e cb s)) = host s.
Proof.
  intros e cb s. unfold on.
  repeat (match goal with |- context [if ?b then _ else _] => destruct b end);
    simpl; auto.
Qed.

Lemma wellFormed_initial : forall tgt, wellFormed (initial tgt).
Proof. intros tgt. repeat split; simpl; constructor. Qed.

Lemma NoDup_snoc : forall (l : list nat) x,
  NoDup l -> ~ In x l -> NoDup (l ++ [x]).
Proof.
  intros l x Hl Hx. apply NoDup_rev in Hl.
  rewrite <- (rev_involutive (l ++ [x])). apply NoDup_rev.
  rewrite rev_app_distr. simpl. constructor; [| exact Hl].
  now rewrite <- in_rev.
Qed.

Lemma step_wellFormed : forall c s,
  wellFormed s -> wellFormed (snd (step c s)).
Proof.
  intros c s (Hid & Hinst & Hnd). unfold wellFormed.
  destruct c as [k o | i | e cb | i | i | ml ob]; simpl.
  - destruct (supportedKind k) eqn:Hk.
    + destruct (watch_supported k o s Hk) as (d & -> & Hd & Ho & _).
      simpl. rewrite !map_app. simpl. rewrite Hd, Ho.
      repeat split.
      * apply Forall_app. split.
        -- eapply Forall_impl; [| exact Hid]. simpl. intros; lia.
        -- constructor; [lia | constructor].
      * apply Forall_app. split.
        -- eapply Forall_impl; [| exact Hinst]. simpl. intros; lia.
        -- constructor; [lia | constructor].
      * apply NoDup_snoc; [exact Hnd |].
        intros Hin. rewrite Forall_forall in Hinst.
        specialize (Hinst _ Hin). lia.
    + rewrite (watch_unsupported k o s Hk). simpl. repeat split; auto.
      eapply Forall_impl; [| exact Hinst]. simpl. intros; lia.
  - destruct (unwatch i s) as [b s'] eqn:Hu.
    pose proof (unwatch_registry i s) as (Hobs & Hn & Hc).
    rewrite Hu in Hobs, Hn, Hc. simpl in *. rewrite Hn, Hc.
    destruct Hobs as [-> | [-> | ->]]; auto.
    + destruct (observers (this s)) as [|d rest]; simpl in *; auto.
      inversion Hid; inversion Hinst; inversion Hnd; subst. auto.
    + simpl. repeat constructor.
  - pose proof (on_keeps e cb s) as (Hobs & Hn & Hh).
    destruct (on e cb s) as [[err|] s']; simpl in *; rewrite Hobs, Hn, Hh; auto.
  - destruct (start_keeps id i s (fun _ _ => eq_refl)) as (-> & -> & _ & ->).
    destruct (start_keeps instance i s (fun _ _ => eq_refl)) as (-> & _).
    auto.
  - destruct (stop_keeps id i s (fun _ _ => eq_refl)) as (-> & -> & _ & ->).
    destruct (stop_keeps instance i s (fun _ _ => eq_refl)) as (-> & _).
    auto.
  - auto.
Qed.

Lemma run_cons : forall c cs s,
  run (c :: cs) s
  = (fst (step c s) :: fst (run cs (snd (step c s))),
     snd (run cs (snd (step c s)))).
Proof.
  intros c cs s. simpl.
  destruct (step c s) as [r s1]. simpl.
  now destruct (run cs s1) as [rs s2].
Qed.

Lemma run_wellFormed : forall cs s,
  wellFormed s -> wellFormed (snd (run cs s)).
Proof.
  induction cs as [|c cs IH]; intros s H; [exact H |].
  rewrite run_cons. simpl. apply IH. now apply step_wellFormed.
Qed.

(** ** The id counter *)

(** A call either returns the successor of the counter as the new id, and
    that is then the counter, or leaves the counter alone. *)
Lemma step_counter : forall c s,
  match fst (step c s) with
  | ReturnedId n =>
      n = S (observerId (this s)) /\ observerId (this (snd (step c s))) = n
  | _ => observerId (this (snd (step c s))) = observerId (this s)
  end.
Proof.
  intros c s. destruct c as [k o | i | e cb | i | i | ml ob]; simpl.
  - destruct (supportedKind k) eqn:Hk.
    + destruct (watch_supported k o s Hk) as (d & -> & _). simpl. auto.
    + rewrite (watch_unsupported k o s Hk). reflexivity.
  - pose proof (unwatch_registry i s) as (_ & Hn & _).
    destruct (unwatch i s) as [b s']. exact Hn.
  - pose proof (on_keeps e cb s) as (_ & Hn & _).
    destruct (on e cb s) as [[err|] s']; exact Hn.
  - now destruct (start_keeps id i s (fun _ _ => eq_refl)) as (_ & -> & _).
  - now destruct (stop_keeps id i s (fun _ _ => eq_refl)) as (_ & -> & _).
  - reflexivity.
Qed.

Lemma run_counter : forall cs s,
  observerId (this s) <= observerId (this (snd (run cs s)))
  /\ Forall (fun n => observerId (this s) < n) (returnedIds (fst (run cs s)))
  /\ StronglySorted lt (returnedIds (fst (run cs s))).
Proof.
  induction cs as [|c cs IH]; intros s.
  - simpl. repeat split; constructor.
  - rewrite run_cons. cbn [fst snd].
    destruct (IH (snd (step c s))) as (Hle & Hall & Hsorted).
    pose proof (step_counter c s) as Hc.
    destruct (fst (step c s)) as [n | b | | | e]; cbn [returnedIds];
      try (rewrite Hc in Hle, Hall; repeat split; assumption).
    destruct Hc as [Hn Hc]. rewrite Hc in Hle, Hall.
    repeat split.
    + lia.
    + constructor; [lia |].
      eapply Forall_impl; [| exact Hall]. simpl. intros; lia.
    + constructor; assumption.
Qed.

(** C7: over any sequence of calls on one router (failing [watch] calls,
    [unwatch], [start], [stop], [on] and deliveries included, from any
    state of the router), the ids returned by the successful [watch] calls
    are positive, each is strictly greater than every id returned before
    it, and none is returned twice. *)
Theorem C7_watch_ids_increase : forall cs s,
  let ids := returnedIds (fst (run cs s)) in
  Forall (fun n => 0 < n) ids
  /\ StronglySorted lt ids
  /\ NoDup ids.
Proof.
  intros cs s ids. subst ids.
  destruct (run_counter cs s) as (_ & Hall & Hsorted).
  repeat split.
  - eapply Forall_impl; [| exact Hall]. simpl. intros; lia.
  - exact Hsorted.
  - clear Hall. induction Hsorted as [|n l _ IH Hn]; constructor; [| exact IH].
    intros Hin. rewrite Forall_forall in Hn. specialize (Hn _ Hin). lia.
Qed.

(** ** The calls without an id *)

Lemma start_all_started : forall s,
  Forall (fun d => started d = true) (observers (this (start None s))).
Proof.
  intros s. unfold start. simpl.
  induction (observers (this s)) as [|d obs IH]; simpl; [constructor |].
  destruct (forEachIf _ _ obs) as [rest es]. simpl in IH.
  destruct (started d) eqn:Hd; simpl; constructor; auto.
Qed.

Lemma stop_all_stopped : forall s,
  Forall (fun d => started d = false) (observers (this (stop None s))).
Proof.
  intros s. unfold stop. simpl.
  induction (observers (this s)) as [|d obs IH]; simpl; [constructor |].
  destruct (forEachIf _ _ obs) as [rest es]. simpl in IH.
  destruct (started d) eqn:Hd; simpl; constructor; auto.
Qed.

(** ** The argument 0 *)

(** C10: [start(0)], [stop(0)] and [unwatch(0)] behave exactly as the
    calls without an argument (so after [start(0)] every descriptor is
    started and after [stop(0)] none is), and no descriptor of a router
    ever carries the id 0, whatever calls were made on it since its
    construction. *)
Theorem C10_zero_is_no_id :
  (forall s, start (Some 0) s = start None s
             /\ stop (Some 0) s = stop None s
             /\ unwatch (Some 0) s = unwatch None s
             /\ Forall (fun d => started d = true)
                       (observers (this (start (Some 0) s)))
             /\ Forall (fun d => started d = false)
                       (observers (this (stop (Some 0) s))))
  /\ (forall tgt cs,
        Forall (fun d => id d <> 0)
               (observers (this (snd (run cs (initial tgt)))))).
Proof.
  split.
  - intros s. repeat split.
    + apply (start_all_started s).
    + apply (stop_all_stopped s).
  - intros tgt cs.
    destruct (run_wellFormed cs (wellFormed_initial tgt)) as (Hid & _).
    rewrite Forall_map in Hid.
    eapply Forall_impl; [| exact Hid]. simpl. intros; lia.
Qed.

(** ** The router *)



Lemma findFilters_skip : forall observer post found,
  (forall e, In e post -> instance e <> observer) ->
  fold_left (fun found observerDescriptor =>
               if instance observerDescriptor =? observer
               then Some (filters observerDescriptor) else found)
            post found = found.
Proof.
  induction post as [|e post IH]; intros found H; simpl; [reflexivity |].
  destruct (Nat.eqb_spec (instance e) observer) as [Heq | _].
  - exfalso. apply (H e); [now left | exact Heq].
  - apply IH. intros e' He'. apply H. now right.
Qed.

(** The router finds the filter set of the descriptor that wraps the
    originating [MutationObserver]. *)
Lemma findFilters_found : forall obs d,
  NoDup (map instance obs) -> In d obs ->
  findFilters obs (instance d) = Some (filters d).
Proof.
  intros obs d Hnd Hin. unfold findFilters.
  apply in_split in Hin. destruct Hin as (pre & post & ->).
  rewrite fold_left_app. simpl. rewrite Nat.eqb_refl.
  apply findFilters_skip. intros e He Heq.
  rewrite map_app in Hnd. simpl in Hnd. apply NoDup_remove_2 in Hnd.
  apply Hnd. apply in_or_app. right. rewrite <- Heq. now apply in_map.
Qed.

Lemma invocations_app : forall listener es1 es2,
  invocations listener (es1 ++ es2)
  = invocations listener es1 ++ invocations listener es2.
Proof.
  intros listener es1 es2. induction es1 as [|e es1 IH]; simpl; [reflexivity |].
  destruct e as [o | o t i | o | o | l node data]; try exact IH.
  destruct (l =? listener); simpl; now rewrite IH.
Qed.

Lemma invocations_flat_map : forall A listener (g : A -> list Effect) xs,
  invocations listener (flat_map g xs)
  = flat_map (fun x => invocations listener (g x)) xs.
Proof.
  intros A listener g xs. induction xs as [|x xs IH]; simpl; [reflexivity |].
  now rewrite invocations_app, IH.
Qed.

Lemma invocations_filtered : forall listener node body x c fs,
  invocations listener body = repeat x c ->
  invocations listener
    (flat_map (fun filter : TokanMutationFilterCallback =>
                 if holds filter node then body else []) fs)
  = repeat x (matching fs node * c).
Proof.
  intros listener node body x c fs Hbody. unfold matching.
  induction fs as [|f fs IH]; [reflexivity |].
  cbn [flat_map filter]. rewrite invocations_app, IH.
  destruct (holds f node); simpl; [| reflexivity].
  now rewrite Hbody, repeat_app.
Qed.

Lemma invocations_throughFilters : forall listener fs node body x c,
  invocations listener body = repeat x c ->
  invocations listener (throughFilters (Some fs) node body)
  = repeat x (fanout fs node * c).
Proof.
  intros listener fs node body x c Hbody.
  destruct fs as [|f fs].
  - simpl. now rewrite Nat.add_0_r.
  - unfold throughFilters, fanout. now apply invocations_filtered.
Qed.

Lemma invocations_one : forall listener l node data,
  invocations listener [Invoke l node data]
  = repeat (node, data) (if Nat.eq_dec l listener then 1 else 0).
Proof.
  intros listener l node data. simpl.
  destruct (Nat.eq_dec l listener) as [-> | Hne].
  - now rewrite Nat.eqb_refl.
  - apply Nat.eqb_neq in Hne. now rewrite Hne.
Qed.

(** The calls a listener receives from [for (const listener of ls)
    listener(node, data)]: one per registration. *)
Lemma invocations_each_listener : forall listener node data ls,
  invocations listener (map (fun l => Invoke l node data) ls)
  = repeat (node, data) (count_occ Nat.eq_dec ls listener).
Proof.
  intros listener node data ls. induction ls as [|l ls IH]; [reflexivity |].
  change (map (fun l0 => Invoke l0 node data) (l :: ls))
    with ([Invoke l node data] ++ map (fun l0 => Invoke l0 node data) ls).
  rewrite invocations_app, invocations_one, IH. cbn [count_occ].
  destruct (Nat.eq_dec l listener); reflexivity.
Qed.

(** The calls a listener receives from the attribute and character-data
    branches, where the filters are walked once per registration. *)
Lemma invocations_per_listener : forall listener fs node data ls,
  invocations listener
    (flat_map (fun l => throughFilters (Some fs) node [Invoke l node data]) ls)
  = repeat (node, data) (count_occ Nat.eq_dec ls listener * fanout fs node).
Proof.
  intros listener fs node data ls. induction ls as [|l ls IH]; [reflexivity |].
  cbn [flat_map count_occ]. rewrite invocations_app, IH.
  rewrite (@invocations_throughFilters listener fs node _ _ _
             (invocations_one listener l node data)).
  rewrite <- repeat_app. f_equal.
  destruct (Nat.eq_dec l listener); lia.
Qed.

(** The calls a listener receives from one half of the child-list branch,
    where the listeners are walked once per node and accepting filter. *)
Lemma invocations_per_node : forall listener fs ls nodes,
  invocations listener
    (if 0 <? length nodes then
       flat_map (fun node =>
                   throughFilters (Some fs) node
                     (map (fun l => Invoke l node None) ls)) nodes
     else [])
  = flat_map (fun node =>
                repeat (node, @None Payload)
                       (fanout fs node * count_occ Nat.eq_dec ls listener))
             nodes.
Proof.
  intros listener fs ls nodes.
  destruct nodes as [|n nodes]; [reflexivity |].
  change (0 <? length (n :: nodes)) with true. cbv iota.
  rewrite invocations_flat_map. apply flat_map_ext. intros node.
  apply invocations_throughFilters, invocations_each_listener.
Qed.

Lemma observerRouter_log : forall pre mutation post observer s,
  let route := routeMutation (listeners (this s))
                             (findFilters (observers (this s)) observer) in
  log (host (observerRouter (pre ++ mutation :: post) observer s))
  = log (host s) ++ flat_map route pre ++ route mutation
      ++ flat_map route post ++ [TakeRecords observer].
Proof.
  intros pre mutation post observer s route. unfold observerRouter. simpl.
  rewrite flat_map_app. simpl. fold route.
  now rewrite <- !app_assoc.
Qed.

(** C1: when the router is handed a batch by the [MutationObserver] of a
    registered descriptor, each record of the batch is routed in turn, and
    for an attribute record every listener receives, per registration in
    the attribute-changed sequence, one call for each predicate of the
    descriptor's filter set that accepts the record's target when that set
    is not empty, and exactly one call when it is empty; every such call
    carries the target and the payload made of the attribute name and the
    old value. *)
Theorem C1_attribute_fanout : forall s d pre mutation post listener,
  NoDup (map instance (observers (this s))) ->
  In d (observers (this s)) ->
  m_type mutation = Attributes ->
  let ls := listeners (this s) in
  let route := routeMutation ls (Some (filters d)) in
  let call := (m_target mutation,
               Some (AttrData (m_attributeName mutation) (m_oldValue mutation))) in
  log (host (observerRouter (pre ++ mutation :: post) (instance d) s))
  = log (host s) ++ flat_map route pre ++ route mutation
      ++ flat_map route post ++ [TakeRecords (instance d)]
  /\ (filters d <> [] ->
      invocations listener (route mutation)
      = repeat call (count_occ Nat.eq_dec (attributeChanged ls) listener
                     * matching (filters d) (m_target mutation)))
  /\ (filters d = [] ->
      invocations listener (route mutation)
      = repeat call (count_occ Nat.eq_dec (attributeChanged ls) listener)).
Proof.
  intros s d pre mutation post listener Hnd Hin Htype ls route call.
  assert (Hcalls : invocations listener (route mutation)
                   = repeat call (count_occ Nat.eq_dec (attributeChanged ls) listener
                                  * fanout (filters d) (m_target mutation))).
  { unfold route, routeMutation. rewrite Htype. apply invocations_per_listener. }
  split; [| split].
  - rewrite observerRouter_log, (@findFilters_found _ d Hnd Hin). reflexivity.
  - intros Hne. rewrite Hcalls.
    destruct (filters d); [congruence | reflexivity].
  - intros He. rewrite Hcalls, He. simpl. now rewrite Nat.mul_1_r.
Qed.

Lemma C1_attribute_fanout_witness :
  exists d,
    In d (observers (this attributeWatcher))
    /\ map fn (filters d) = [100; 101]
    /\ invocations 10 (routeMutation (listeners (this attributeWatcher))
                                     (Some (filters d)) (classChanged 5))
       = [(5, Some (AttrData (Some "class"%string) (Some "old"%string)));
          (5, Some (AttrData (Some "class"%string) (Some "old"%string)))].
Proof.
  eexists. split; [left; reflexivity |]. split; [reflexivity |].
  refine (proj1 (proj2 (@C1_attribute_fanout attributeWatcher _ [] (classChanged 5)
                          [] 10 _ _ eq_refl)) _).
  - repeat constructor. intros [].
  - left. reflexivity.
  - discriminate.
Defined.

(** C8: for a child-list record handed over by the [MutationObserver] of a
    registered descriptor, every listener receives for each added node, in
    list order and per registration in the added sequence, one call for
    each predicate of the descriptor's filter set that accepts the node
    when that set is not empty and one call when it is empty, and then the
    same for each removed node per registration in the removed sequence;
    every such call carries the node alone. In particular, without filters
    and with two nodes added, a listener registered once for added nodes
    (and not for removed ones) is called exactly twice, with the first node
    and then with the second. *)
Theorem C8_child_list_fanout : forall s d pre mutation post listener,
  NoDup (map instance (observers (this s))) ->
  In d (observers (this s)) ->
  m_type mutation = ChildList ->
  let ls := listeners (this s) in
  let route := routeMutation ls (Some (filters d)) in
  let times node :=
    match filters d with
    | [] => 1
    | _ :: _ => matching (filters d) node
    end in
  log (host (observerRouter (pre ++ mutation :: post) (instance d) s))
  = log (host s) ++ flat_map route pre ++ route mutation
      ++ flat_map route post ++ [TakeRecords (instance d)]
  /\ invocations listener (route mutation)
     = flat_map (fun node =>
                   repeat (node, @None Payload)
                          (times node * count_occ Nat.eq_dec (added ls) listener))
                (m_addedNodes mutation)
       ++
       flat_map (fun node =>
                   repeat (node, @None Payload)
                          (times node * count_occ Nat.eq_dec (removed ls) listener))
                (m_removedNodes mutation)
  /\ (forall n1 n2,
        filters d = [] ->
        m_addedNodes mutation = [n1; n2] ->
        m_removedNodes mutation = [] ->
        count_occ Nat.eq_dec (added ls) listener = 1 ->
        invocations listener (route mutation) = [(n1, None); (n2, None)]).
Proof.
  intros s d pre mutation post listener Hnd Hin Htype ls route times.
  assert (Hcalls : invocations listener (route mutation)
     = flat_map (fun node =>
                   repeat (node, @None Payload)
                          (times node * count_occ Nat.eq_dec (added ls) listener))
                (m_addedNodes mutation)
       ++
       flat_map (fun node =>
                   repeat (node, @None Payload)
                          (times node * count_occ Nat.eq_dec (removed ls) listener))
                (m_removedNodes mutation)).
  { unfold route, routeMutation. rewrite Htype.
    rewrite invocations_app, !invocations_per_node. reflexivity. }
  split; [| split].
  - rewrite observerRouter_log, (@findFilters_found _ d Hnd Hin). reflexivity.
  - exact Hcalls.
  - intros n1 n2 Hfs Hadded Hremoved Hcount.
    rewrite Hcalls, Hadded, Hremoved, Hcount. subst times.
    rewrite Hfs. reflexivity.
Qed.

Lemma C8_child_list_fanout_witness :
  exists d,
    In d (observers (this nodesWatcher))
    /\ filters d = []
    /\ invocations 10 (routeMutation (listeners (this nodesWatcher))
                                     (Some (filters d)) (inserted [3; 4]))
       = [(3, None); (4, None)]
    /\ invocations 11 (routeMutation (listeners (this nodesWatcher))
                                     (Some (filters d)) (inserted [3; 4]))
       = [(3, None); (4, None)].
Proof.
  eexists. split; [left; reflexivity |]. split; [reflexivity |].
  match goal with
  | |- context [Some (filters ?d)] =>
      pose proof (fun listener H1 H2 =>
                    proj2 (proj2 (@C8_child_list_fanout nodesWatcher d []
                                    (inserted [3; 4]) [] listener H1 H2 eq_refl)))
        as W
  end.
  assert (H1 : NoDup (map instance (observers (this nodesWatcher))))
    by (repeat constructor; intros []).
  split.
  - exact (W 10 H1 (or_introl eq_refl) 3 4 eq_refl eq_refl eq_refl eq_refl).
  - exact (W 11 H1 (or_introl eq_refl) 3 4 eq_refl eq_refl eq_refl eq_refl).
Defined.

(** * Further properties of the class *)

(** ** [on] *)

Ltac string_cases :=
  repeat match goal with
         | |- context [String.eqb ?a ?b] =>
             destruct (String.eqb_spec a b); subst; try discriminate
         | H : context [String.eqb ?a ?b] |- _ =>
             destruct (String.eqb_spec a b); subst; try discriminate
         end.

(** X1: [on] with an event name that is none of the four throws, and the
    whole state (listener table, registry, counter, host) is what it was. *)
Theorem on_unknown_event_throws : forall event callback s,
  listenersFor event (listeners (this s)) = None ->
  on event callback s = (Some (ExpectedMutationEvent event), s).
Proof.
  intros event callback s H. unfold listenersFor in H. unfold on.
  string_cases. reflexivity.
Qed.

Lemma on_unknown_event_throws_witness :
  on "click" 10 nodesWatcher = (Some (ExpectedMutationEvent "click"), nodesWatcher).
Proof. exact (@on_unknown_event_throws "click" 10 nodesWatcher eq_refl). Defined.

(** X2: [on] with one of the four event names returns normally, appends the
    callback at the end of that event's sequence (also when it is already
    there), and leaves the sequences of the other events, the registry, the
    counter, the target and the host untouched. *)
Theorem on_appends_listener : forall event callback s l,
  listenersFor event (listeners (this s)) = Some l ->
  fst (on event callback s) = None
  /\ listenersFor event (listeners (this (snd (on event callback s))))
     = Some (l ++ [callback])
  /\ (forall other, other <> event ->
        listenersFor other (listeners (this (snd (on event callback s))))
        = listenersFor other (listeners (this s)))
  /\ observers (this (snd (on event callback s))) = observers (this s)
  /\ observerId (this (snd (on event callback s))) = observerId (this s)
  /\ target (this (snd (on event callback s))) = target (this s)
  /\ host (snd (on event callback s)) = host s.
Proof.
  intros event callback s l H. unfold listenersFor in H. unfold on.
  string_cases; inversion H; subst; simpl;
    (split; [reflexivity |]); (split; [reflexivity |]);
    (split; [| auto]);
    intros other Hother; unfold listenersFor; simpl;
    string_cases; try reflexivity; congruence.
Qed.

Lemma on_appends_listener_witness :
  listenersFor "added" (listeners (this (snd (on "added" 10 nodesWatcher))))
  = Some [10; 11; 10].
Proof.
  exact (proj1 (proj2 (@on_appends_listener "added" 10 nodesWatcher [10; 11] eq_refl))).
Defined.

(** ** Listeners are never removed *)

Lemma grownFrom_refl : forall ls, grownFrom ls ls.
Proof. intros ls. repeat split; exists []; now rewrite app_nil_r. Qed.

Lemma grownFrom_trans : forall a b c,
  grownFrom a b -> grownFrom b c -> grownFrom a c.
Proof.
  intros a b c ((x1 & H1) & (x2 & H2) & (x3 & H3) & (x4 & H4))
               ((y1 & G1) & (y2 & G2) & (y3 & G3) & (y4 & G4)).
  repeat split;
    [exists (x1 ++ y1) | exists (x2 ++ y2) | exists (x3 ++ y3) | exists (x4 ++ y4)];
    rewrite app_assoc; congruence.
Qed.

Lemma on_grows : forall e cb s,
  grownFrom (listeners (this s)) (listeners (this (snd (on e cb s)))).
Proof.
  intros e cb s. unfold on.
  string_cases; simpl; try apply grownFrom_refl;
    repeat split; simpl;
    solve [exists []; now rewrite app_nil_r | eexists; reflexivity].
Qed.

Lemma watch_listeners : forall k o s,
  listeners (this (snd (watch k o s))) = listeners (this s)
  /\ target (this (snd (watch k o s))) = target (this s).
Proof.
  intros k o s. destruct (supportedKind k) eqn:Hk.
  - destruct (watch_supported k o s Hk) as (d & -> & _). simpl. auto.
  - rewrite (watch_unsupported k o s Hk). simpl. auto.
Qed.

Lemma unwatch_listeners : forall i s,
  listeners (this (snd (unwatch i s))) = listeners (this s)
  /\ target (this (snd (unwatch i s))) = target (this s).
Proof.
  intros i s. unfold unwatch. destruct (given i) as [n|].
  - destruct (observers (this s)) as [|d rest]; simpl; auto.
    destruct ((id d =? n) && negb (started d)); simpl; auto.
  - destruct (disconnectUnstarted (observers (this s))) as [es [|]]; simpl; auto.
Qed.

Lemma step_grows : forall c s,
  grownFrom (listeners (this s)) (listeners (this (snd (step c s)))).
Proof.
  intros c s. destruct c as [k o | i | e cb | i | i | ml ob]; simpl.
  - pose proof (watch_listeners k o s) as [H _].
    destruct (watch k o s) as [[err | n] s']; simpl in *;
      rewrite H; apply grownFrom_refl.
  - pose proof (unwatch_listeners i s) as [H _].
    destruct (unwatch i s) as [b s']; simpl in *. rewrite H. apply grownFrom_refl.
  - pose proof (on_grows e cb s) as H.
    destruct (on e cb s) as [[err|] s']; exact H.
  - destruct (start_keeps id i s (fun _ _ => eq_refl)) as (_ & _ & -> & _).
    apply grownFrom_refl.
  - destruct (stop_keeps id i s (fun _ _ => eq_refl)) as (_ & _ & -> & _).
    apply grownFrom_refl.
  - apply grownFrom_refl.
Qed.

(** X3: no sequence of calls ever removes or reorders a listener: after any
    run each of the four listener sequences is the one before the run with
    further listeners appended. *)
Theorem listeners_only_grow : forall cs s,
  grownFrom (listeners (this s)) (listeners (this (snd (run cs s)))).
Proof.
  induction cs as [|c cs IH]; intros s.
  - apply grownFrom_refl.
  - rewrite run_cons. cbn [snd].
    eapply grownFrom_trans; [apply step_grows | apply IH].
Qed.

(** ** [watch] *)

(** X4: [watch] with a supported kind returns the successor of the
    counter, which becomes the counter, and appends one descriptor with
    that id, not started, wrapping a newly constructed [MutationObserver];
    the descriptors registered before, the listeners and the target are
    untouched, and the observer is constructed but not connected. *)
Theorem watch_registers_unstarted : forall mutationKind options s,
  supportedKind mutationKind = true ->
  fst (watch mutationKind options s) = inr (S (observerId (this s)))
  /\ observerId (this (snd (watch mutationKind options s))) = S (observerId (this s))
  /\ (exists d,
        observers (this (snd (watch mutationKind options s)))
        = observers (this s) ++ [d]
        /\ id d = S (observerId (this s))
        /\ started d = false
        /\ instance d = created (host s))
  /\ listeners (this (snd (watch mutationKind options s))) = listeners (this s)
  /\ target (this (snd (watch mutationKind options s))) = target (this s)
  /\ log (host (snd (watch mutationKind options s)))
     = log (host s) ++ [NewObserver (created (host s))].
Proof.
  intros k options s Hk.
  destruct (watch_supported k options s Hk) as (d & -> & Hid & Hinst & Hst & _).
  simpl. repeat split. exists d. auto.
Qed.

Lemma watch_registers_unstarted_witness :
  fst (watch "characterData" None twoWatchers) = inr 3
  /\ observerId (this (snd (watch "characterData" None twoWatchers))) = 3.
Proof.
  destruct (@watch_registers_unstarted "characterData" None twoWatchers eq_refl)
    as (H1 & H2 & _).
  split; [exact H1 | exact H2].
Defined.

Lemma stringsOf_callbacks_only : forall fs,
  (forall f, In f fs -> exists c, f = FilterCallback c) ->
  stringsOf fs = [].
Proof.
  induction fs as [|f fs IH]; intros H; [reflexivity |].
  destruct (H f (or_introl eq_refl)) as [c ->]. simpl.
  apply IH. intros g Hg. apply H. now right.
Qed.

(** X5: the configuration handed to the host depends on the kind as
    follows. Only an attribute watcher carries an attribute filter: it is
    the list of the string entries of [options.filters], in order, whenever
    that option is given, so it is the empty list (not absent) when the
    option holds callbacks only. A character-data or child-list watcher
    never carries an attribute filter, whatever strings were passed, and a
    child-list watcher ignores [oldValue]. Each watcher observes exactly
    the one category of its kind. *)
Theorem watch_config_by_kind : forall options s,
  let made k := map config (skipn (length (observers (this s)))
                              (observers (this (snd (watch k options s))))) in
  (exists c, made "attributes"%string = [c]
     /\ attributes c = Some true
     /\ characterData c = None /\ childList c = None
     /\ attributeOldValue c = optionsOldValue options
     /\ subtree c = optionsSubtree options
     /\ attributeFilter c = option_map stringsOf (optionsFilters options)
     /\ (forall fs, optionsFilters options = Some fs ->
           (forall f, In f fs -> exists cb, f = FilterCallback cb) ->
           attributeFilter c = Some []))
  /\ (exists c, made "characterData"%string = [c]
     /\ characterData c = Some true
     /\ attributes c = None /\ childList c = None
     /\ characterDataOldValue c = optionsOldValue options
     /\ subtree c = optionsSubtree options
     /\ attributeFilter c = None)
  /\ (exists c, made "nodes"%string = [c]
     /\ childList c = Some true
     /\ attributes c = None /\ characterData c = None
     /\ attributeOldValue c = None /\ characterDataOldValue c = None
     /\ subtree c = optionsSubtree options
     /\ attributeFilter c = None).
Proof.
  intros options s made. subst made.
  assert (Hskip : forall (l : list TokanObserverDescriptor) d,
             skipn (length l) (l ++ [d]) = [d]).
  { intros l d. rewrite skipn_app, Nat.sub_diag, skipn_all. reflexivity. }
  repeat split; eexists; simpl; rewrite Hskip; simpl;
    (split; [reflexivity |]); repeat split.
  intros fs Hfs Hcb. rewrite Hfs. simpl.
  now rewrite (stringsOf_callbacks_only fs Hcb).
Qed.








(** ** Ids *)

Lemma run_ids_contiguous : forall cs s,
  returnedIds (fst (run cs s))
  = seq (S (observerId (this s))) (length (returnedIds (fst (run cs s))))
  /\ observerId (this (snd (run cs s)))
     = observerId (this s) + length (returnedIds (fst (run cs s))).
Proof.
  induction cs as [|c cs IH]; intros s.
  - simpl. split; [reflexivity | lia].
  - rewrite run_cons. cbn [fst snd].
    destruct (IH (snd (step c s))) as (Hids & Hn).
    pose proof (step_counter c s) as Hc.
    destruct (fst (step c s)) as [n | b | | | e]; cbn [returnedIds];
      try (rewrite Hc in Hids, Hn; split; assumption).
    destruct Hc as [Hnew Hc]. rewrite Hc in Hids, Hn. subst n.
    cbn [length seq]. split; [now rewrite <- Hids | lia].
Qed.

(** X7: on a router as the constructor makes it, the successful [watch]
    calls of any sequence of calls return 1, 2, 3, ... in turn: a failing
    [watch] consumes no id, neither does any other call, and the counter
    always equals the number of successful [watch] calls so far. *)
Theorem watch_ids_contiguous : forall querySelector document arg s cs,
  construct querySelector document arg = inr s ->
  returnedIds (fst (run cs s)) = seq 1 (length (returnedIds (fst (run cs s))))
  /\ observerId (this (snd (run cs s))) = length (returnedIds (fst (run cs s))).
Proof.
  intros q doc arg s cs Hs.
  assert (H0 : observerId (this s) = 0).
  { destruct arg; simpl in Hs; inversion Hs; reflexivity. }
  destruct (run_ids_contiguous cs s) as (Hids & Hn).
  rewrite H0 in Hids, Hn. auto.
Qed.

Lemma watch_ids_contiguous_witness :
  returnedIds (fst (run [CallWatch "nodes" None; CallWatch "bogus" None;
                         CallUnwatch None; CallWatch "attributes" None]
                        (initial 9)))
  = [1; 2].
Proof.
  exact (proj1 (@watch_ids_contiguous (fun _ => None) 9 (Selector "#container") _
                  [CallWatch "nodes" None; CallWatch "bogus" None;
                   CallUnwatch None; CallWatch "attributes" None] eq_refl)).
Defined.

Lemma StronglySorted_snoc : forall (l : list nat) x,
  StronglySorted lt l -> Forall (fun y => y < x) l ->
  StronglySorted lt (l ++ [x]).
Proof.
  induction 1 as [|y l Hl IH Hy]; intros Hx; simpl.
  - repeat constructor.
  - inversion Hx; subst. constructor; [auto |].
    apply Forall_app. split; [exact Hy | repeat constructor; assumption].
Qed.

Lemma step_sorted : forall c s,
  wellFormed s ->
  StronglySorted lt (map id (observers (this s))) ->
  StronglySorted lt (map id (observers (this (snd (step c s))))).
Proof.
  intros c s (Hid & _) Hs.
  destruct c as [k o | i | e cb | i | i | ml ob]; simpl.
  - destruct (supportedKind k) eqn:Hk.
    + destruct (watch_supported k o s Hk) as (d & -> & Hd & _).
      simpl. rewrite map_app. simpl. rewrite Hd.
      apply StronglySorted_snoc; [exact Hs |].
      eapply Forall_impl; [| exact Hid]. simpl. intros; lia.
    + now rewrite (watch_unsupported k o s Hk).
  - pose proof (unwatch_registry i s) as (Hobs & _).
    destruct (unwatch i s) as [b s']. simpl in *.
    destruct Hobs as [-> | [-> | ->]]; [exact Hs | | constructor].
    destruct (observers (this s)); [exact Hs |].
    simpl in *. now inversion Hs.
  - pose proof (on_keeps e cb s) as (Hobs & _).
    destruct (on e cb s) as [[err|] s']; simpl in *; now rewrite Hobs.
  - now destruct (start_keeps id i s (fun _ _ => eq_refl)) as (-> & _).
  - now destruct (stop_keeps id i s (fun _ _ => eq_refl)) as (-> & _).
  - exact Hs.
Qed.

Lemma run_sorted : forall cs s,
  wellFormed s ->
  StronglySorted lt (map id (observers (this s))) ->
  StronglySorted lt (map id (observers (this (snd (run cs s))))).
Proof.
  induction cs as [|c cs IH]; intros s Hwf Hs; [exact Hs |].
  rewrite run_cons. cbn [snd].
  apply IH; [now apply step_wellFormed | now apply step_sorted].
Qed.

(** X8: whatever calls were made on a router since its construction, the
    ids of its descriptors are strictly increasing in iteration order (so
    no two descriptors share an id, and the registry iterates in order of
    creation), each id lies between 1 and the counter, and no two
    descriptors wrap the same [MutationObserver]. *)
Theorem registry_ids_increase : forall tgt cs,
  let s := snd (run cs (initial tgt)) in
  StronglySorted lt (map id (observers (this s)))
  /\ NoDup (map id (observers (this s)))
  /\ Forall (fun d => 1 <= id d <= observerId (this s)) (observers (this s))
  /\ NoDup (map instance (observers (this s))).
Proof.
  intros tgt cs s. subst s.
  pose proof (run_wellFormed cs (wellFormed_initial tgt)) as (Hid & _ & Hnd).
  pose proof (run_sorted cs (wellFormed_initial tgt)
                (SSorted_nil lt : StronglySorted lt (map id (observers (this (initial tgt))))))
    as Hs.
  repeat split; try assumption.
  - clear Hid Hnd.
    induction Hs as [|n l _ IH Hn]; constructor; [| exact IH].
    intros Hin. rewrite Forall_forall in Hn. specialize (Hn _ Hin). lia.
  - now rewrite Forall_map in Hid.
Qed.

(** ** [start] and [stop] *)

Section LoopsTwice.
Variable test : TokanObserverDescriptor -> bool.
Variable act : TokanObserverDescriptor -> TokanObserverDescriptor * Effect.
Hypothesis act_settles : forall d, test d = true -> test (fst (act d)) = false.

Lemma forWhile_twice : forall obs,
  forWhile test act (fst (forWhile test act obs))
  = (fst (forWhile test act obs), []).
Proof.
  intros [|d obs]; [reflexivity |]. simpl.
  destruct (test d) eqn:Hd.
  - destruct (forWhile test act obs) as [rest es]. simpl.
    now rewrite (act_settles Hd).
  - simpl. now rewrite Hd.
Qed.

Lemma forEachIf_twice : forall obs,
  forEachIf test act (fst (forEachIf test act obs))
  = (fst (forEachIf test act obs), []).
Proof.
  induction obs as [|d obs IH]; [reflexivity |]. simpl.
  destruct (forEachIf test act obs) as [rest es]. simpl in IH.
  destruct (test d) eqn:Hd; simpl; rewrite IH.
  - now rewrite (act_settles Hd).
  - now rewrite Hd.
Qed.
End LoopsTwice.

(** X9: [start] and [stop] are idempotent, with or without an id: a second
    call with the same argument right after the first changes nothing, and
    in particular asks nothing more of the host. *)
Theorem start_stop_idempotent : forall i s,
  start i (start i s) = start i s /\ stop i (stop i s) = stop i s.
Proof.
  intros i s. split.
  - unfold start at 1. destruct (given i) as [n|] eqn:Hi.
    + unfold start. rewrite Hi. cbn [this commit target observers set_observers].
      rewrite forWhile_twice.
      * apply (commit_nothing (commit _ s)).
      * intros d Hd. simpl. apply andb_false_r.
    + unfold start. rewrite Hi. cbn [this commit target observers set_observers].
      rewrite forEachIf_twice; [apply (commit_nothing (commit _ s)) | reflexivity].
  - unfold stop at 1. destruct (given i) as [n|] eqn:Hi.
    + unfold stop. rewrite Hi. cbn [this commit target observers set_observers].
      rewrite forWhile_twice.
      * apply (commit_nothing (commit _ s)).
      * intros d Hd. simpl. apply andb_false_r.
    + unfold stop. rewrite Hi. cbn [this commit target observers set_observers].
      rewrite forEachIf_twice; [apply (commit_nothing (commit _ s)) | reflexivity].
Qed.

Section LoopCalls.
Variable P : Effect -> Prop.
Variable test : TokanObserverDescriptor -> bool.
Variable act : TokanObserverDescriptor -> TokanObserverDescriptor * Effect.
Hypothesis act_calls : forall d, P (snd (act d)).

Lemma forWhile_calls : forall obs, Forall P (snd (forWhile test act obs)).
Proof.
  induction obs as [|d obs IH]; simpl; [constructor |].
  destruct (test d); [| constructor].
  destruct (forWhile test act obs) as [rest es]. simpl in *.
  constructor; auto.
Qed.

Lemma forEachIf_calls : forall obs, Forall P (snd (forEachIf test act obs)).
Proof.
  induction obs as [|d obs IH]; simpl; [constructor |].
  destruct (forEachIf test act obs) as [rest es]. simpl in *.
  destruct (test d); simpl; [constructor |]; auto.
Qed.
End LoopCalls.

(** X10: [start] and [stop] change nothing of the router but [started]
    flags: the descriptors stay the same up to that flag, in the same
    order, and the counter, the listeners and the target are untouched.
    The only calls [start] makes are [observe] calls on the router's target,
    and the only calls [stop] makes are [disconnect] calls. *)
Theorem start_stop_only_flags : forall i s,
  (map (set_started false) (observers (this (start i s)))
   = map (set_started false) (observers (this s))
   /\ observerId (this (start i s)) = observerId (this s)
   /\ listeners (this (start i s)) = listeners (this s)
   /\ target (this (start i s)) = target (this s)
   /\ exists es, log (host (start i s)) = log (host s) ++ es
                 /\ Forall (fun e => exists o c, e = Observe o (target (this s)) c) es)
  /\
  (map (set_started false) (observers (this (stop i s)))
   = map (set_started false) (observers (this s))
   /\ observerId (this (stop i s)) = observerId (this s)
   /\ listeners (this (stop i s)) = listeners (this s)
   /\ target (this (stop i s)) = target (this s)
   /\ exists es, log (host (stop i s)) = log (host s) ++ es
                 /\ Forall (fun e => exists o, e = Disconnect o) es).
Proof.
  intros i s. split.
  - destruct (start_keeps (set_started false) i s (fun _ _ => eq_refl))
      as (H1 & H2 & H3 & _).
    repeat (split; [assumption |]).
    unfold start. destruct (given i); simpl; (split; [reflexivity |]);
      eexists; (split; [reflexivity |]);
      [apply forWhile_calls | apply forEachIf_calls]; intros d; simpl; eauto.
  - destruct (stop_keeps (set_started false) i s (fun _ _ => eq_refl))
      as (H1 & H2 & H3 & _).
    repeat (split; [assumption |]).
    unfold stop. destruct (given i); simpl; (split; [reflexivity |]);
      eexists; (split; [reflexivity |]);
      [apply forWhile_calls | apply forEachIf_calls]; intros d; simpl; eauto.
Qed.

Lemma start_all_unstarted : forall tgt obs,
  Forall (fun d => started d = false) obs ->
  forEachIf (fun observer => negb (started observer)) (activate tgt) obs
  = (map (set_started true) obs, observes tgt obs).
Proof.
  induction 1 as [|d obs Hd _ IH]; simpl; [reflexivity |].
  now rewrite IH, Hd.
Qed.

Lemma stop_all_of_started : forall obs,
  Forall (fun d => started d = false) obs ->
  forEachIf (fun observer => started observer) deactivate
            (map (set_started true) obs)
  = (obs, disconnects obs).
Proof.
  induction 1 as [|d obs Hd _ IH]; simpl; [reflexivity |].
  rewrite IH. simpl. f_equal. f_equal.
  destruct d as [i o c fs st]. simpl in Hd. now subst st.
Qed.

(** X11: on a router none of whose descriptors is started, [start()]
    followed by [stop()] gives back the router as it was; in between every
    descriptor is started, and the host has seen one [observe] per
    descriptor on the router's target with the descriptor's configuration,
    in registry order, followed by one [disconnect] per descriptor. *)
Theorem start_all_stop_all_round_trip : forall s,
  Forall (fun d => started d = false) (observers (this s)) ->
  this (stop None (start None s)) = this s
  /\ observers (this (start None s)) = map (set_started true) (observers (this s))
  /\ log (host (stop None (start None s)))
     = log (host s) ++ observes (target (this s)) (observers (this s))
         ++ disconnects (observers (this s)).
Proof.
  intros s H. unfold stop, start. simpl.
  rewrite (start_all_unstarted (target (this s)) H). simpl.
  rewrite (stop_all_of_started H). simpl.
  repeat split.
  - destruct s as [[tgt n obs ls] h]. reflexivity.
  - now rewrite app_assoc.
Qed.

Lemma start_all_stop_all_round_trip_witness :
  this (stop None (start None twoWatchers)) = this twoWatchers
  /\ map started (observers (this (start None twoWatchers))) = [true; true].
Proof.
  assert (H : Forall (fun d => started d = false) (observers (this twoWatchers)))
    by (repeat constructor).
  destruct (start_all_stop_all_round_trip twoWatchers H) as (H1 & H2 & _).
  split; [exact H1 |]. rewrite H2. reflexivity.
Defined.

(** ** The host's subscriptions mirror the [started] flags *)

Lemma subscribed_app : forall o es1 es2 b,
  subscribed o (es1 ++ es2) b = subscribed o es2 (subscribed o es1 b).
Proof.
  intros o es1. induction es1 as [|e es1 IH]; intros es2 b; [reflexivity |].
  destruct e; simpl; apply IH.
Qed.

Lemma subscribed_neutral : forall o es b,
  Forall (fun e => match e with
                   | Observe _ _ _ | Disconnect _ => False
                   | _ => True
                   end) es ->
  subscribed o es b = b.
Proof.
  intros o es b H. induction H as [|e es He _ IH]; [reflexivity |].
  destruct e; simpl; solve [exact IH | destruct He].
Qed.

Lemma activeOn_absent : forall obs o,
  ~ In o (map instance obs) -> activeOn obs o = false.
Proof.
  induction obs as [|d obs IH]; intros o H; [reflexivity |].
  simpl in *. rewrite IH by tauto.
  destruct (Nat.eqb_spec (instance d) o); [tauto | reflexivity].
Qed.

Lemma activeOn_unstarted : forall obs o,
  Forall (fun d => started d = false) obs -> activeOn obs o = false.
Proof.
  induction 1 as [|d obs Hd _ IH]; [reflexivity |].
  simpl. rewrite Hd, IH. now rewrite andb_false_r.
Qed.

Lemma activeOn_member : forall obs d,
  NoDup (map instance obs) -> In d obs ->
  activeOn obs (instance d) = started d.
Proof.
  induction obs as [|e obs IH]; intros d Hnd Hin; [destruct Hin |].
  simpl in *. inversion Hnd as [|? ? Hnotin Hnd']; subst.
  destruct Hin as [-> | Hin].
  - rewrite Nat.eqb_refl, (activeOn_absent _ _ Hnotin). simpl. apply orb_false_r.
  - rewrite (IH d Hnd' Hin).
    destruct (Nat.eqb_spec (instance e) (instance d)) as [Heq | _]; [| reflexivity].
    exfalso. apply Hnotin. rewrite Heq. now apply in_map.
Qed.

Lemma Pass_none : forall act obs, Pass act obs obs [].
Proof. intros act obs. induction obs; constructor; assumption. Qed.

Lemma forWhile_Pass : forall test act obs,
  Pass act obs (fst (forWhile test act obs)) (snd (forWhile test act obs)).
Proof.
  intros test act obs. induction obs as [|d obs IH]; simpl; [constructor |].
  destruct (test d); [| apply Pass_none].
  destruct (forWhile test act obs) as [rest es]. simpl in *.
  now constructor.
Qed.

Lemma forEachIf_Pass : forall test act obs,
  Pass act obs (fst (forEachIf test act obs)) (snd (forEachIf test act obs)).
Proof.
  intros test act obs. induction obs as [|d obs IH]; simpl; [constructor |].
  destruct (forEachIf test act obs) as [rest es]. simpl in *.
  destruct (test d); simpl; now constructor.
Qed.

Lemma set_started_same : forall d b, started d = b -> set_started b d = d.
Proof. intros [i o c fs st] b H. simpl in H. now subst. Qed.

Lemma disconnectUnstarted_Pass : forall obs,
  Pass deactivate obs obs (fst (disconnectUnstarted obs)).
Proof.
  induction obs as [|d obs IH]; simpl; [constructor |].
  destruct (started d) eqn:Hd; simpl; [apply Pass_none |].
  destruct (disconnectUnstarted obs) as [es completed]. simpl in *.
  pose proof (@Pass_act deactivate d _ _ _ IH) as H. simpl in H.
  now rewrite (@set_started_same d false Hd) in H.
Qed.

Lemma Pass_activate_subscribed : forall tgt obs obs' es,
  Pass (activate tgt) obs obs' es ->
  forall o b, subscribed o es (b || activeOn obs o) = b || activeOn obs' o.
Proof.
  intros tgt obs obs' es H.
  induction H as [| d obs obs' es _ IH | d obs obs' es _ IH]; intros o b.
  - reflexivity.
  - simpl. rewrite !orb_assoc. apply IH.
  - simpl. destruct (instance d =? o); simpl.
    + rewrite orb_true_r. apply (IH o true).
    + apply IH.
Qed.

Lemma Pass_deactivate_subscribed : forall obs obs' es,
  Pass deactivate obs obs' es ->
  NoDup (map instance obs) ->
  forall o b, (b = true -> ~ In o (map instance obs)) ->
  subscribed o es (b || activeOn obs o) = b || activeOn obs' o.
Proof.
  intros obs obs' es H.
  induction H as [| d obs obs' es _ IH | d obs obs' es _ IH];
    intros Hnd o b Hb.
  - reflexivity.
  - simpl in *. inversion Hnd as [|? ? Hnotin Hnd']; subst.
    rewrite !orb_assoc. apply IH; [exact Hnd' |].
    intros Hor. apply orb_true_iff in Hor. destruct Hor as [Hor | Hor].
    + specialize (Hb Hor). tauto.
    + apply andb_true_iff in Hor. destruct Hor as [Heq _].
      apply Nat.eqb_eq in Heq. now rewrite <- Heq.
  - simpl in *. inversion Hnd as [|? ? Hnotin Hnd']; subst.
    destruct (Nat.eqb_spec (instance d) o) as [Heq | Hne]; simpl.
    + destruct b; [exfalso; apply (Hb eq_refl); now left |].
      simpl. subst o.
      assert (Hf : false = true -> ~ In (instance d) (map instance obs))
        by discriminate.
      pose proof (IH Hnd' (instance d) false Hf) as H. simpl in H.
      now rewrite (activeOn_absent _ _ Hnotin) in H.
    + apply IH; [exact Hnd' |]. intros Hbt. specialize (Hb Hbt). tauto.
Qed.

Lemma throughFilters_Forall : forall (P : Effect -> Prop) found node body,
  Forall P body -> Forall P (throughFilters found node body).
Proof.
  intros P found node body H.
  destruct found as [[|f fs]|]; simpl; try exact H.
  apply Forall_app. split.
  - destruct (holds f node); [exact H | constructor].
  - apply Forall_flat_map. apply Forall_forall. intros g _.
    destruct (holds g node); [exact H | constructor].
Qed.

(** Every call the routing of a record makes is a listener invocation
    that fits the record: a listener of the record's event, the record's
    target (or one of its added or removed nodes) and the event's payload. *)
Lemma routeMutation_calls : forall ls found m,
  Forall (fun e => exists l node data,
            e = Invoke l node data
            /\ match m_type m with
               | Attributes =>
                   In l (attributeChanged ls) /\ node = m_target m
                   /\ data = Some (AttrData (m_attributeName m) (m_oldValue m))
               | CharacterData =>
                   In l (characterDataChanged ls) /\ node = m_target m
                   /\ data = Some (CharData (m_oldValue m))
               | ChildList =>
                   data = None
                   /\ ((In l (added ls) /\ In node (m_addedNodes m))
                       \/ (In l (removed ls) /\ In node (m_removedNodes m)))
               end)
         (routeMutation ls found m).
Proof.
  intros ls found m. unfold routeMutation.
  destruct (m_type m).
  - apply Forall_flat_map, Forall_forall. intros l Hl.
    apply throughFilters_Forall. repeat constructor. eauto 10.
  - apply Forall_flat_map, Forall_forall. intros l Hl.
    apply throughFilters_Forall. repeat constructor. eauto 10.
  - apply Forall_app. split.
    + destruct (0 <? length (m_addedNodes m)); [| constructor].
      apply Forall_flat_map, Forall_forall. intros node Hnode.
      apply throughFilters_Forall, Forall_map, Forall_forall.
      intros l Hl. eauto 10.
    + destruct (0 <? length (m_removedNodes m)); [| constructor].
      apply Forall_flat_map, Forall_forall. intros node Hnode.
      apply throughFilters_Forall, Forall_map, Forall_forall.
      intros l Hl. eauto 10.
Qed.

Lemma routeMutation_neutral : forall ls found ml,
  Forall (fun e => match e with
                   | Observe _ _ _ | Disconnect _ => False
                   | _ => True
                   end)
         (flat_map (routeMutation ls found) ml).
Proof.
  intros ls found ml. apply Forall_flat_map, Forall_forall. intros m _.
  eapply Forall_impl; [| apply routeMutation_calls].
  intros e (l & node & data & -> & _). exact I.
Qed.

Lemma step_mirrored : forall c s,
  wellFormed s -> mirrored s -> mirrored (snd (step c s)).
Proof.
  intros c s (_ & _ & Hnd) Hm o. specialize (Hm o).
  destruct c as [k opt | i | e cb | i | i | ml ob]; simpl.
  - destruct (supportedKind k) eqn:Hk.
    + destruct (watch_supported k opt s Hk) as (d & -> & _ & _ & Hst & _).
      simpl. rewrite subscribed_app, Hm. simpl.
      unfold activeOn. rewrite existsb_app. simpl.
      now rewrite Hst, andb_false_r, !orb_false_r.
    + rewrite (watch_unsupported k opt s Hk). simpl.
      now rewrite subscribed_app, Hm.
  - unfold unwatch. destruct (given i) as [n|].
    + destruct (observers (this s)) as [|d rest] eqn:Hobs; simpl;
        [now rewrite Hm, Hobs |].
      destruct ((id d =? n) && negb (started d)) eqn:Ht; simpl;
        [| now rewrite Hm, Hobs].
      apply andb_true_iff in Ht. destruct Ht as [_ Hst].
      apply negb_true_iff in Hst.
      rewrite subscribed_app, Hm.
      pose proof (@Pass_act deactivate d _ _ _ (Pass_none deactivate rest)) as HP.
      pose proof (@Pass_deactivate_subscribed _ _ _ HP Hnd o false) as H.
      simpl in H. simpl. rewrite H by discriminate.
      now rewrite andb_false_r.
    + pose proof (disconnectUnstarted_Pass (observers (this s))) as HP.
      pose proof (@Pass_deactivate_subscribed _ _ _ HP Hnd o false) as H.
      simpl in H.
      destruct (started_dichotomy (observers (this s))) as [Hall | Hex].
      * rewrite (disconnectUnstarted_none_started Hall) in *. simpl in *.
        rewrite subscribed_app, Hm, H by discriminate.
        apply activeOn_unstarted, Hall.
      * destruct (disconnectUnstarted_some_started Hex)
          as (pre & d & post & _ & _ & _ & Hrun).
        rewrite Hrun in *. simpl in *.
        rewrite subscribed_app, Hm. apply H. discriminate.
  - pose proof (on_keeps e cb s) as (Hobs & _ & Hh).
    destruct (on e cb s) as [[err|] s']; simpl in *; now rewrite Hobs, Hh.
  - unfold start. destruct (given i) as [n|]; simpl;
      rewrite subscribed_app, Hm;
      [ apply (Pass_activate_subscribed (forWhile_Pass _ _ _) o false)
      | apply (Pass_activate_subscribed (forEachIf_Pass _ _ _) o false) ].
  - unfold stop. destruct (given i) as [n|]; simpl;
      rewrite subscribed_app, Hm;
      [ apply (@Pass_deactivate_subscribed _ _ _ (forWhile_Pass _ _ _) Hnd o false)
      | apply (@Pass_deactivate_subscribed _ _ _ (forEachIf_Pass _ _ _) Hnd o false) ];
      discriminate.
  - rewrite !subscribed_app. simpl.
    now rewrite (subscribed_neutral _ _ (routeMutation_neutral _ _ ml)).
Qed.

Lemma run_mirrored : forall cs s,
  wellFormed s -> mirrored s -> mirrored (snd (run cs s)).
Proof.
  induction cs as [|c cs IH]; intros s Hwf Hm; [exact Hm |].
  rewrite run_cons. cbn [snd].
  apply IH; [now apply step_wellFormed | now apply step_mirrored].
Qed.

(** X12: whatever calls were made on a router since its construction, the
    host's subscriptions mirror the registry: the [MutationObserver] of a
    registered descriptor is connected exactly when the descriptor's
    [started] flag is set, and any connected [MutationObserver] belongs to a
    registered, started descriptor (so [unwatch] never leaves a connected
    observer behind). *)
Theorem subscriptions_mirror_started : forall tgt cs,
  let s := snd (run cs (initial tgt)) in
  (forall d, In d (observers (this s)) ->
     subscribed (instance d) (log (host s)) false = started d)
  /\ (forall o, subscribed o (log (host s)) false = true ->
        exists d, In d (observers (this s)) /\ instance d = o /\ started d = true).
Proof.
  intros tgt cs s. subst s.
  pose proof (run_wellFormed cs (wellFormed_initial tgt)) as Hwf.
  assert (Hm : mirrored (snd (run cs (initial tgt)))).
  { apply run_mirrored; [apply wellFormed_initial | intros o; reflexivity]. }
  destruct Hwf as (_ & _ & Hnd). split.
  - intros d Hin. rewrite Hm. now apply activeOn_member.
  - intros o Ho. rewrite Hm in Ho. apply existsb_exists in Ho.
    destruct Ho as (d & Hin & Hd). apply andb_true_iff in Hd.
    destruct Hd as [Heq Hst]. apply Nat.eqb_eq in Heq. eauto.
Qed.

(** ** Calls with an id *)

Lemma stop_id_first : forall s n d rest,
  0 < n ->
  observers (this s) = d :: rest ->
  id d = n -> started d = true ->
  (forall e, hd_error rest = Some e -> id e <> n) ->
  stop (Some n) s
  = {| this := set_observers (set_started false d :: rest) (this s);
       host := emit [Disconnect (instance d)] (host s) |}.
Proof.
  intros s n d rest Hn Hobs Hid Hst Hrest.
  unfold stop. rewrite (given_positive Hn), Hobs. simpl.
  rewrite Hid, Nat.eqb_refl, Hst. simpl.
  destruct rest as [|e rest]; [reflexivity |].
  simpl. specialize (Hrest e eq_refl). apply Nat.eqb_neq in Hrest.
  now rewrite Hrest.
Qed.

Lemma start_id_unmatched : forall s n d rest,
  0 < n ->
  observers (this s) = d :: rest ->
  (id d =? n) && negb (started d) = false ->
  start (Some n) s = s.
Proof.
  intros s n d rest Hn Hobs Ht.
  unfold start. rewrite (given_positive Hn), Hobs. simpl. rewrite Ht.
  rewrite <- Hobs. apply commit_nothing.
Qed.

Lemma stop_id_unmatched : forall s n d rest,
  0 < n ->
  observers (this s) = d :: rest ->
  (id d =? n) && started d = false ->
  stop (Some n) s = s.
Proof.
  intros s n d rest Hn Hobs Ht.
  unfold stop. rewrite (given_positive Hn), Hobs. simpl. rewrite Ht.
  rewrite <- Hobs. apply commit_nothing.
Qed.

Lemma start_stop_id_empty : forall s n,
  observers (this s) = [] ->
  start (Some n) s = s /\ stop (Some n) s = s.
Proof.
  intros s n Hobs. unfold start, stop.
  destruct (given (Some n)); rewrite Hobs; simpl;
    rewrite <- Hobs; split; apply commit_nothing.
Qed.

Lemma sorted_head_unique : forall d rest n,
  StronglySorted lt (map id (d :: rest)) -> id d = n ->
  forall e, hd_error rest = Some e -> id e <> n.
Proof.
  intros d rest n Hs Hid e He. destruct rest as [|e' rest]; [discriminate |].
  inversion He; subst e'. simpl in Hs. inversion Hs as [|? ? _ Hall]; subst.
  inversion Hall; subst. lia.
Qed.

(** X13: on a router reached by any calls since its construction,
    [start(id)] and [stop(id)] with a non-zero id reach the first
    descriptor of the registry only: either the call changes nothing at
    all, or the first descriptor carries that id and is the one, and the
    only one, whose subscription and [started] flag change. *)
Theorem start_stop_id_reach_first_only : forall tgt cs n,
  let s := snd (run cs (initial tgt)) in
  (start (Some (S n)) s = s
   \/ exists d rest,
        observers (this s) = d :: rest /\ id d = S n /\ started d = false
        /\ start (Some (S n)) s
           = {| this := set_observers (set_started true d :: rest) (this s);
                host := emit [Observe (instance d) (target (this s)) (config d)]
                             (host s) |})
  /\
  (stop (Some (S n)) s = s
   \/ exists d rest,
        observers (this s) = d :: rest /\ id d = S n /\ started d = true
        /\ stop (Some (S n)) s
           = {| this := set_observers (set_started false d :: rest) (this s);
                host := emit [Disconnect (instance d)] (host s) |}).
Proof.
  intros tgt cs n s.
  assert (Hs : StronglySorted lt (map id (observers (this s)))).
  { apply run_sorted; [apply wellFormed_initial | constructor]. }
  destruct (observers (this s)) as [|d rest] eqn:Hobs.
  - destruct (start_stop_id_empty s (S n) Hobs). auto.
  - assert (Hn : 0 < S n) by lia.
    destruct (Nat.eqb_spec (id d) (S n)) as [Hid | Hid].
    + pose proof (sorted_head_unique Hs Hid) as Hrest.
      destruct (started d) eqn:Hst; split.
      * left. apply (start_id_unmatched s Hn Hobs).
        rewrite Hst. apply andb_false_r.
      * right. exists d, rest. repeat split; try assumption.
        now apply stop_id_first.
      * right. exists d, rest. repeat split; try assumption.
        now apply start_id_first.
      * left. apply (stop_id_unmatched s Hn Hobs).
        rewrite Hst. apply andb_false_r.
    + split; left.
      * apply (start_id_blocked s Hn Hobs Hid).
      * apply (stop_id_blocked s Hn Hobs Hid).
Qed.

(** X14: [unwatch(id)] with a non-zero id returns [true] exactly when the
    first descriptor of the registry carries that id and is not started;
    it then disconnects that descriptor's observer and removes that
    descriptor, and nothing else changes. *)
Theorem unwatch_id_true_iff_first : forall n s,
  fst (unwatch (Some (S n)) s) = true
  <-> exists d rest,
        observers (this s) = d :: rest /\ id d = S n /\ started d = false
        /\ snd (unwatch (Some (S n)) s)
           = {| this := set_observers rest (this s);
                host := emit [Disconnect (instance d)] (host s) |}.
Proof.
  intros n s. split.
  - unfold unwatch. simpl.
    destruct (observers (this s)) as [|d rest]; simpl; [discriminate |].
    destruct ((id d =? S n) && negb (started d)) eqn:Ht; simpl; [| discriminate].
    intros _. apply andb_true_iff in Ht. destruct Ht as [Hid Hst].
    apply Nat.eqb_eq in Hid. apply negb_true_iff in Hst.
    exists d, rest. auto.
  - intros (d & rest & Hobs & Hid & Hst & _).
    assert (Hn : 0 < S n) by lia.
    now rewrite (unwatch_id_first s Hn Hobs Hid Hst).
Qed.

(** ** More on the router *)

(** X15: for a character-data record handed over by the
    [MutationObserver] of a registered descriptor, every listener receives,
    per registration in the character-data sequence, one call for each
    predicate of the descriptor's filter set that accepts the record's
    target, or exactly one call when that set is empty; each call carries
    the target and a payload holding the old value only. *)
Theorem character_data_fanout : forall s d mutation listener,
  NoDup (map instance (observers (this s))) ->
  In d (observers (this s)) ->
  m_type mutation = CharacterData ->
  invocations listener
    (routeMutation (listeners (this s))
                   (findFilters (observers (this s)) (instance d)) mutation)
  = repeat (m_target mutation, Some (CharData (m_oldValue mutation)))
           (count_occ Nat.eq_dec (characterDataChanged (listeners (this s))) listener
            * fanout (filters d) (m_target mutation)).
Proof.
  intros s d mutation listener Hnd Hin Htype.
  rewrite (@findFilters_found _ d Hnd Hin).
  unfold routeMutation. rewrite Htype. apply invocations_per_listener.
Qed.

Lemma character_data_fanout_witness :
  exists d,
    In d (observers (this textWatcher))
    /\ invocations 10
         (routeMutation (listeners (this textWatcher))
                        (findFilters (observers (this textWatcher)) (instance d))
                        (textChanged 5))
       = [(5, Some (CharData (Some "old"%string)));
          (5, Some (CharData (Some "old"%string)))].
Proof.
  eexists. split; [left; reflexivity |].
  refine (@character_data_fanout textWatcher _ (textChanged 5) 10 _
            (or_introl eq_refl) eq_refl).
  repeat constructor. intros [].
Defined.

Lemma findFilters_cases : forall obs observer,
  findFilters obs observer = None
  \/ exists d, In d obs /\ instance d = observer
               /\ findFilters obs observer = Some (filters d).
Proof.
  intros obs observer. unfold findFilters.
  induction obs as [|d obs IH] using rev_ind; [now left |].
  rewrite fold_left_app. simpl.
  destruct (Nat.eqb_spec (instance d) observer) as [Heq | _].
  - right. exists d. split; [apply in_or_app; right; now left | auto].
  - destruct IH as [IH | (e & He & Heq & IH)]; [now left |].
    right. exists e. split; [apply in_or_app; now left | auto].
Qed.

Lemma flat_map_singleton : forall A B (f : A -> B) l,
  flat_map (fun x => [f x]) l = map f l.
Proof. intros A B f l. induction l; simpl; congruence. Qed.

Lemma guarded_flat_map : forall A (f : Node -> list A) nodes,
  (if 0 <? length nodes then flat_map f nodes else []) = flat_map f nodes.
Proof. intros A f [|n nodes]; reflexivity. Qed.

(** X16: a batch from a [MutationObserver] that no registered descriptor
    wraps (one removed by [unwatch], say), or whose descriptor has no
    predicate filter, is dispatched without filtering: each record goes to
    every listener of its event once per registration, in registration
    order; for a child-list record the added nodes come first, node by
    node in list order, then the removed nodes. *)
Theorem unfiltered_dispatch_in_order : forall s observer mutation,
  (forall d, In d (observers (this s)) -> instance d = observer -> filters d = []) ->
  routeMutation (listeners (this s))
                (findFilters (observers (this s)) observer) mutation
  = match m_type mutation with
    | Attributes =>
        map (fun l => Invoke l (m_target mutation)
                        (Some (AttrData (m_attributeName mutation)
                                        (m_oldValue mutation))))
            (attributeChanged (listeners (this s)))
    | CharacterData =>
        map (fun l => Invoke l (m_target mutation)
                        (Some (CharData (m_oldValue mutation))))
            (characterDataChanged (listeners (this s)))
    | ChildList =>
        flat_map (fun node => map (fun l => Invoke l node None)
                                  (added (listeners (this s))))
                 (m_addedNodes mutation)
        ++ flat_map (fun node => map (fun l => Invoke l node None)
                                     (removed (listeners (this s))))
                    (m_removedNodes mutation)
    end.
Proof.
  intros s observer mutation H.
  assert (Hfound : forall node body,
            throughFilters (findFilters (observers (this s)) observer) node body
            = body).
  { intros node body.
    destruct (findFilters_cases (observers (this s)) observer)
      as [-> | (d & Hin & Heq & ->)]; [reflexivity |].
    now rewrite (H d Hin Heq). }
  unfold routeMutation. destruct (m_type mutation).
  - rewrite <- flat_map_singleton. apply flat_map_ext. intros l. apply Hfound.
  - rewrite <- flat_map_singleton. apply flat_map_ext. intros l. apply Hfound.
  - rewrite !guarded_flat_map. f_equal; apply flat_map_ext; intros node; apply Hfound.
Qed.

Lemma unfiltered_dispatch_in_order_witness :
  routeMutation (listeners (this nodesWatcher))
                (findFilters (observers (this nodesWatcher)) 7) (inserted [3; 4])
  = [Invoke 10 3 None; Invoke 11 3 None; Invoke 10 4 None; Invoke 11 4 None].
Proof.
  refine (@unfiltered_dispatch_in_order nodesWatcher 7 (inserted [3; 4]) _).
  intros d [<- | []] Hd. discriminate Hd.
Defined.

(** X17: routing a batch changes no field of the router. All it asks of
    the host is a series of listener invocations followed by a single
    [takeRecords] on the originating observer, and every invocation fits
    some record of the batch: it calls a listener registered for the
    record's event, with the record's target and the event's payload for
    attribute and character-data records, and with one of the record's
    added (removed) nodes and no payload for a listener of added (removed)
    nodes. *)
Theorem router_calls_fit_records : forall mutationList observer s,
  this (observerRouter mutationList observer s) = this s
  /\ exists calls,
       log (host (observerRouter mutationList observer s))
       = log (host s) ++ calls ++ [TakeRecords observer]
       /\ Forall (fun e => exists m l node data,
                    In m mutationList /\ e = Invoke l node data
                    /\ match m_type m with
                       | Attributes =>
                           In l (attributeChanged (listeners (this s)))
                           /\ node = m_target m
                           /\ data = Some (AttrData (m_attributeName m) (m_oldValue m))
                       | CharacterData =>
                           In l (characterDataChanged (listeners (this s)))
                           /\ node = m_target m
                           /\ data = Some (CharData (m_oldValue m))
                       | ChildList =>
                           data = None
                           /\ ((In l (added (listeners (this s)))
                                /\ In node (m_addedNodes m))
                               \/ (In l (removed (listeners (this s)))
                                   /\ In node (m_removedNodes m)))
                       end)
                 calls.
Proof.
  intros ml observer s. split; [reflexivity |].
  eexists. split; [reflexivity |].
  apply Forall_flat_map, Forall_forall. intros m Hm.
  eapply Forall_impl; [| apply routeMutation_calls].
  intros e (l & node & data & He & Hfit). exists m, l, node, data. auto.
Qed.

Lemma flat_map_rejected : forall (fs : list TokanMutationFilterCallback) node
    (body : list Effect),
  (forall f, In f fs -> holds f node = false) ->
  flat_map (fun filter : TokanMutationFilterCallback =>
              if holds filter node then body else []) fs = [].
Proof.
  induction fs as [|f fs IH]; intros node body H; [reflexivity |].
  simpl. rewrite (H f (or_introl eq_refl)). simpl.
  apply IH. intros g Hg. apply H. now right.
Qed.

Lemma flat_map_in_nil : forall A B (f : A -> list B) l,
  (forall x, In x l -> f x = []) -> flat_map f l = [].
Proof.
  intros A B f l. induction l as [|x l IH]; intros H; [reflexivity |].
  simpl. rewrite (H x (or_introl eq_refl)). apply IH.
  intros y Hy. apply H. now right.
Qed.

(** X18: when the filter set of the originating descriptor is not empty
    and every predicate in it rejects the node it is asked about, the
    record reaches no listener at all. The node asked about is the record's
    target for attribute and character-data records; for a child-list
    record it is each added and each removed node, never the target. *)
Theorem rejected_nodes_reach_no_listener : forall s d mutation,
  NoDup (map instance (observers (this s))) ->
  In d (observers (this s)) ->
  filters d <> [] ->
  (forall f node,
     In f (filters d) ->
     match m_type mutation with
     | ChildList => In node (m_addedNodes mutation ++ m_removedNodes mutation)
     | _ => node = m_target mutation
     end ->
     holds f node = false) ->
  routeMutation (listeners (this s))
                (findFilters (observers (this s)) (instance d)) mutation = [].
Proof.
  intros s d mutation Hnd Hin Hne Hrej.
  rewrite (@findFilters_found _ d Hnd Hin).
  assert (Hnone : forall node body,
            (forall f, In f (filters d) -> holds f node = false) ->
            throughFilters (Some (filters d)) node body = []).
  { intros node body H. unfold throughFilters.
    destruct (filters d) as [|f fs] eqn:Hfs; [congruence |].
    now apply flat_map_rejected. }
  unfold routeMutation. destruct (m_type mutation).
  - apply flat_map_in_nil. intros l _.
    apply Hnone. intros f Hf. now apply Hrej.
  - apply flat_map_in_nil. intros l _.
    apply Hnone. intros f Hf. now apply Hrej.
  - rewrite !guarded_flat_map.
    rewrite !flat_map_in_nil; [reflexivity | |].
    + intros node Hnode. apply Hnone. intros f Hf.
      apply Hrej; [exact Hf | apply in_or_app; now right].
    + intros node Hnode. apply Hnone. intros f Hf.
      apply Hrej; [exact Hf | apply in_or_app; now left].
Qed.

Lemma rejected_nodes_reach_no_listener_witness :
  exists d,
    In d (observers (this pickyWatcher))
    /\ routeMutation (listeners (this pickyWatcher))
                     (findFilters (observers (this pickyWatcher)) (instance d))
                     {| m_type := ChildList; m_target := 5;
                        m_attributeName := None; m_oldValue := None;
                        m_addedNodes := [3; 4]; m_removedNodes := [6] |}
       = [].
Proof.
  eexists. split; [left; reflexivity |].
  refine (@rejected_nodes_reach_no_listener pickyWatcher _
            {| m_type := ChildList; m_target := 5;
               m_attributeName := None; m_oldValue := None;
               m_addedNodes := [3; 4]; m_removedNodes := [6] |}
            _ (or_introl eq_refl) _ _).
  - repeat constructor. intros [].
  - discriminate.
  - intros f node [<- | []] [<- | [<- | [<- | []]]]; reflexivity.
Defined.

(** ** The target *)

Lemma step_target : forall c s,
  target (this (snd (step c s))) = target (this s)
  /\ exists es, log (host (snd (step c s))) = log (host s) ++ es
                /\ observesOnly (target (this s)) es.
Proof.
  intros c s. unfold observesOnly.
  destruct c as [k o | i | e cb | i | i | ml ob]; simpl.
  - destruct (supportedKind k) eqn:Hk.
    + destruct (watch_supported k o s Hk) as (d & -> & _). simpl.
      split; [reflexivity |]. eexists. split; [reflexivity |].
      repeat constructor.
    + rewrite (watch_unsupported k o s Hk). simpl.
      split; [reflexivity |]. eexists. split; [reflexivity |].
      repeat constructor.
  - unfold unwatch. destruct (given i) as [n|].
    + destruct (observers (this s)) as [|d rest]; simpl.
      * split; [reflexivity |]. exists []. rewrite app_nil_r. split; constructor.
      * destruct ((id d =? n) && negb (started d)); simpl;
          (split; [reflexivity |]).
        -- eexists. split; [reflexivity |]. repeat constructor.
        -- exists []. rewrite app_nil_r. split; constructor.
    + pose proof (disconnectUnstarted_Pass (observers (this s))) as HP.
      assert (Hes : Forall (fun e => match e with
                                     | Observe _ t _ => t = target (this s)
                                     | _ => True
                                     end)
                           (fst (disconnectUnstarted (observers (this s))))).
      { induction HP; simpl; auto. }
      destruct (disconnectUnstarted (observers (this s))) as [es [|]]; simpl in *;
        (split; [reflexivity |]); exists es; auto.
  - pose proof (on_keeps e cb s) as (_ & _ & Hh).
    assert (Ht : target (this (snd (on e cb s))) = target (this s)).
    { unfold on. string_cases; reflexivity. }
    destruct (on e cb s) as [[err|] s']; simpl in *; rewrite Hh;
      (split; [exact Ht |]); exists []; rewrite app_nil_r; split; constructor.
  - unfold start. destruct (given i); simpl; (split; [reflexivity |]);
      eexists; (split; [reflexivity |]);
      [apply forWhile_calls | apply forEachIf_calls]; reflexivity.
  - unfold stop. destruct (given i); simpl; (split; [reflexivity |]);
      eexists; (split; [reflexivity |]);
      [apply forWhile_calls | apply forEachIf_calls]; intros d; exact I.
  - split; [reflexivity |]. eexists. split; [reflexivity |].
    apply Forall_app. split; [| repeat constructor].
    eapply Forall_impl; [| apply (routeMutation_neutral _ _ ml)].
    intros [] H; simpl in *; tauto.
Qed.

(** X19: the target chosen at construction is never reassigned, and every
    [observe] call the router ever makes, on any of its observers, is on
    that target. *)
Theorem target_is_fixed : forall tgt cs,
  let s := snd (run cs (initial tgt)) in
  target (this s) = tgt
  /\ observesOnly tgt (log (host s)).
Proof.
  intros tgt cs s. subst s.
  assert (H : forall cs s,
            observesOnly (target (this s)) (log (host s)) ->
            target (this (snd (run cs s))) = target (this s)
            /\ observesOnly (target (this s)) (log (host (snd (run cs s))))).
  { clear. induction cs as [|c cs IH]; intros s Hs; [auto |].
    rewrite run_cons. cbn [snd].
    destruct (step_target c s) as (Ht & es & Hlog & Hes).
    destruct (IH (snd (step c s))) as (Ht' & Hlog').
    - rewrite Ht, Hlog. apply Forall_app. auto.
    - rewrite Ht in *. auto. }
  apply (H cs (initial tgt)). constructor.
Qed.

(** ** Removal and tear-down *)

(** X20: [unwatch], with or without an id and whatever it returns, never
    removes a started descriptor: every descriptor that is started before
    the call is still registered, and still started, after it. *)
Theorem unwatch_keeps_started : forall i s d,
  In d (observers (this s)) ->
  started d = true ->
  In d (observers (this (snd (unwatch i s)))).
Proof.
  intros i s d Hin Hst. unfold unwatch. destruct (given i) as [n|].
  - destruct (observers (this s)) as [|e rest] eqn:Hobs; simpl;
      [now rewrite Hobs |].
    destruct ((id e =? n) && negb (started e)) eqn:Ht; simpl;
      [| now rewrite Hobs].
    destruct Hin as [-> | Hin]; [| exact Hin].
    rewrite Hst in Ht. simpl in Ht. now rewrite andb_false_r in Ht.
  - destruct (started_dichotomy (observers (this s))) as [Hall | Hex].
    + rewrite Forall_forall in Hall. specialize (Hall d Hin). congruence.
    + destruct (disconnectUnstarted_some_started Hex)
        as (pre & e & post & _ & _ & _ & ->).
      exact Hin.
Qed.

Lemma unwatch_keeps_started_witness :
  exists d,
    In d (observers (this secondStarted)) /\ started d = true
    /\ In d (observers (this (snd (unwatch (Some 1) secondStarted))))
    /\ In d (observers (this (snd (unwatch None secondStarted)))).
Proof.
  eexists. split; [right; left; reflexivity |]. split; [reflexivity |].
  match goal with
  | |- In ?d _ /\ _ =>
      split;
      [ exact (@unwatch_keeps_started (Some 1) secondStarted d
                 (or_intror (or_introl eq_refl)) eq_refl)
      | exact (@unwatch_keeps_started None secondStarted d
                 (or_intror (or_introl eq_refl)) eq_refl) ]
  end.
Defined.

(** X21: [stop()] followed by [unwatch()] always tears the router down,
    whatever its state: [unwatch()] returns [true], the registry is empty,
    and the host has been asked to disconnect every descriptor that was
    registered. The counter keeps its value. *)
Theorem stop_all_then_unwatch_all : forall s,
  let r := unwatch None (stop None s) in
  fst r = true
  /\ observers (this (snd r)) = []
  /\ observerId (this (snd r)) = observerId (this s)
  /\ forall d, In d (observers (this s)) ->
       In (Disconnect (instance d))
          (skipn (length (log (host s))) (log (host (snd r)))).
Proof.
  intros s r. subst r.
  pose proof (stop_all_stopped s) as Hall.
  destruct (stop_keeps instance None s (fun _ _ => eq_refl)) as (Hinst & Hn & _).
  assert (Hlog : exists es, log (host (stop None s)) = log (host s) ++ es).
  { unfold stop. simpl. eauto. }
  remember (stop None s) as s1 eqn:E. clear E.
  unfold unwatch. simpl given. cbv iota.
  rewrite (disconnectUnstarted_none_started Hall). simpl.
  split; [reflexivity |]. split; [reflexivity |]. split; [exact Hn |].
  intros d Hin. destruct Hlog as (es & ->).
  rewrite <- app_assoc, skipn_app, Nat.sub_diag, skipn_all. simpl.
  apply in_or_app. right. unfold disconnects.
  rewrite <- (map_map instance Disconnect), Hinst.
  apply in_map, in_map, Hin.
Qed.
